(** * mcp-google-sheets: a shallow embedding of [sheets.ts] and of the server
      bootstrap and tool registrations of [index.ts]

    The Google Sheets / Drive clients are the external collaborator.  They
    are modelled as records of state transformers over an abstract
    collaborator state [W]; every call the program makes is appended to a
    trace, so that statements of the form "exactly one request is issued"
    can be stated and proved. *)

From Stdlib Require Import ZArith List String Ascii Bool Lia DecimalString.
Import ListNotations.

Local Open Scope string_scope.
Local Open Scope list_scope.
Local Open Scope Z_scope.

(** String concatenation of template literals. *)
Infix "^^" := String.append (at level 60, right associativity).

(* ================================================================== *)
(** ** JavaScript values and control flow *)
(* ================================================================== *)

Module Js.

(** An [Error] object, as thrown by the program and by the client
    libraries. *)
Record Error := { name : string; message : string }.

(** [new Error(msg)] *)
Definition new_Error (msg : string) : Error :=
  {| name := "Error"; message := msg |}.

(** A [TypeError] raised by the engine. *)
Definition TypeError (msg : string) : Error :=
  {| name := "TypeError"; message := msg |}.

(** Reading property [prop] of [null]. *)
Definition null_property (prop : string) : Error :=
  TypeError ("Cannot read properties of null (reading '" ^^ prop ^^ "')").

(** Reading property [prop] of [undefined]. *)
Definition undefined_property (prop : string) : Error :=
  TypeError ("Cannot read properties of undefined (reading '" ^^ prop ^^ "')").

(** [Error.prototype.toString] *)
Definition Error_toString (e : Error) : string :=
  if String.eqb (name e) "" then message e
  else if String.eqb (message e) "" then name e
  else name e ^^ ": " ^^ message e.

(** Truthiness of a string: only the empty string is falsy. *)
Definition truthy_string (s : string) : bool := negb (String.eqb s "").

(** Truthiness of [string | undefined]. *)
Definition truthy (o : option string) : bool :=
  match o with
  | Some s => truthy_string s
  | None => false
  end.

(** Template-literal rendering of [string | undefined]. *)
Definition string_of_optional (o : option string) : string :=
  match o with
  | Some s => s
  | None => "undefined"
  end.

(** [Array.prototype.join(",")], given the rendering of one element. *)
Definition join {A : Type} (item : A -> string) (l : list A) : string :=
  String.concat "," (map item l).

(** The key of array index [i], as [Object.entries] reports it. *)
Definition index_key (i : nat) : string :=
  NilZero.string_of_uint (Nat.to_uint i).

(** JavaScript values of type [any]: what [JSON.parse] yields and what an
    untyped parameter can hold.  Numbers are the integral ones. *)
#[local] Unset Elimination Schemes.
Inductive any :=
| JUndefined
| JNull
| JBool (b : bool)
| JNumber (n : Z)
| JString (s : string)
| JArray (items : list any)
| JObject (props : list (string * any)).
#[local] Set Elimination Schemes.

(** Truthiness of [any]. *)
Definition truthy_any (v : any) : bool :=
  match v with
  | JUndefined => false
  | JNull => false
  | JBool b => b
  | JNumber n => negb (n =? 0)
  | JString s => truthy_string s
  | JArray _ => true
  | JObject _ => true
  end.

(** Decimal rendering of an integral number. *)
Definition decimal (n : Z) : string := NilZero.string_of_int (Z.to_int n).

(** [String(v)], as performed by a template literal. *)
Fixpoint toString (v : any) : string :=
  match v with
  | JUndefined => "undefined"
  | JNull => "null"
  | JBool b => if b then "true" else "false"
  | JNumber n => decimal n
  | JString s => s
  | JArray items =>
      join (fun x => match x with
                     | JUndefined => ""
                     | JNull => ""
                     | _ => toString x
                     end) items
  | JObject _ => "[object Object]"
  end.

(** Pairs every element with its index, starting at [i]. *)
Fixpoint indexed {A : Type} (i : nat) (l : list A) : list (string * A) :=
  match l with
  | [] => []
  | x :: l' => (index_key i, x) :: indexed (S i) l'
  end.

(** The characters of a string, each as a one-character string. *)
Fixpoint chars (s : string) : list any :=
  match s with
  | EmptyString => []
  | String c s' => JString (String c EmptyString) :: chars s'
  end.

(** The own enumerable properties of a value, in enumeration order.  For
    an array the keys are the decimal indices.  The properties of a
    [JObject] are kept in enumeration order. *)
Definition own_entries (v : any) : list (string * any) :=
  match v with
  | JString s => indexed 0 (chars s)
  | JArray items => indexed 0 items
  | JObject props => props
  | _ => []
  end.

(** The value stored under key [k], [undefined] when there is none. *)
Definition lookup (k : string) (entries : list (string * any)) : any :=
  match find (fun p => String.eqb (fst p) k) entries with
  | Some p => snd p
  | None => JUndefined
  end.

(** A value of type [string | A]. *)
Inductive string_or (A : Type) :=
| Str (s : string)
| Obj (a : A).
Arguments Str {A} s.
Arguments Obj {A} a.

(** Truthiness of a number; [None] stands for a value that is no usable
    number ([undefined], [NaN]). *)
Definition truthy_number (n : option Z) : bool :=
  match n with
  | Some z => negb (z =? 0)
  | None => false
  end.

(** [n || 0] *)
Definition number_or_zero (n : option Z) : Z :=
  match n with
  | Some z => if z =? 0 then 0 else z
  | None => 0
  end.

(** How a promise settles. *)
Inductive settled (A : Type) :=
| Fulfilled (a : A)
| Rejected (e : Error).
Arguments Fulfilled {A} a.
Arguments Rejected {A} e.

(** How a piece of code completes: normally, by a thrown error, or by
    [process.exit]. *)
Inductive completion (A : Type) :=
| Return (a : A)
| Throw (e : Error)
| Exit (code : Z).
Arguments Return {A} a.
Arguments Throw {A} e.
Arguments Exit {A} code.

Section Monad.
Context {S : Type}.

(** Code running against a mutable state [S]. *)
Definition M (A : Type) : Type := S -> completion A * S.

Definition ret {A} (a : A) : M A := fun s => (Return a, s).

Definition bind {A B} (m : M A) (k : A -> M B) : M B :=
  fun s =>
    match m s with
    | (Return a, s') => k a s'
    | (Throw e, s') => (Throw e, s')
    | (Exit c, s') => (Exit c, s')
    end.

(** [throw e] *)
Definition throw {A} (e : Error) : M A := fun s => (Throw e, s).

(** [process.exit(code)] *)
Definition process_exit {A} (code : Z) : M A := fun s => (Exit code, s).

(** [try { body } catch (e) { handler e }] *)
Definition try_catch {A} (body : M A) (handler : Error -> M A) : M A :=
  fun s =>
    match body s with
    | (Throw e, s') => handler e s'
    | r => r
    end.

(** State update. *)
Definition modify (f : S -> S) : M unit := fun s => (Return tt, f s).

(** State read. *)
Definition gets {A} (f : S -> A) : M A := fun s => (Return (f s), s).

(** [await p] for an already settled promise. *)
Definition await {A} (p : settled A) : M A :=
  match p with
  | Fulfilled a => ret a
  | Rejected e => throw e
  end.

(** [v[k]] and [v.k] *)
Definition get_property (v : any) (k : string) : M any :=
  match v with
  | JUndefined => throw (undefined_property k)
  | JNull => throw (null_property k)
  | _ => ret (lookup k (own_entries v))
  end.

(** [Object.entries(v)] *)
Definition Object_entries (v : any) : M (list (string * any)) :=
  match v with
  | JUndefined => throw (TypeError "Cannot convert undefined or null to object")
  | JNull => throw (TypeError "Cannot convert undefined or null to object")
  | _ => ret (own_entries v)
  end.
End Monad.

Arguments M S A : clear implicits.

Declare Scope js_scope.
Delimit Scope js_scope with js.
Notation "x <- m ;; k" := (bind m (fun x => k))
  (at level 61, m at next level, right associativity) : js_scope.
Notation "m ;;; k" := (bind m (fun _ => k))
  (at level 61, right associativity) : js_scope.

End Js.

Import Js.
Local Open Scope js_scope.

(* ================================================================== *)
(** ** The googleapis surface used by the program *)
(* ================================================================== *)

Module Api.

(** A row-major grid of cell values. *)
Definition grid := list (list string).

Record GridProperties := { rowCount : option Z; columnCount : option Z }.

Record SheetProperties := {
  sheetId : option Z;
  title : option string;
  index : option Z;
  gridProperties : option GridProperties
}.

Record Sheet := { properties : option SheetProperties }.

Record SpreadsheetProperties := { spreadsheet_title : option string }.

Record Spreadsheet := {
  spreadsheetId : option string;
  spreadsheet_properties : option SpreadsheetProperties;
  sheets : option (list Sheet);
  spreadsheetUrl : option string
}.

Inductive Dimension := ROWS | COLUMNS.

Record DimensionRange := {
  range_sheetId : option Z;
  dimension : Dimension;
  startIndex : Z;
  endIndex : Z
}.

(** The entries of [requests] in a [spreadsheets.batchUpdate] body. *)
Inductive Request :=
| updateSheetProperties (sheet_id : option Z) (new_title : string)
    (fields : string)
| addSheet (new_title : string)
| insertDimension (range : DimensionRange) (inheritFromBefore : bool).

Record AddSheetResponse := { addSheet_properties : option SheetProperties }.

Record Reply := { reply_addSheet : option AddSheetResponse }.

Record BatchUpdateSpreadsheetResponse := { replies : option (list Reply) }.

Record ValueRange := { values : option grid }.

Record UpdateValuesResponse := { updatedCells : option Z }.

Record BatchUpdateValuesResponse := { totalUpdatedCells : option Z }.

(** One entry of [data] in a [values.batchUpdate] body. *)
Record DataEntry := { entry_range : string; entry_values : any }.

Record Permission := { id : option string }.

Record File := {
  file_id : option string;
  file_name : option string;
  parents : option (list string)
}.

Record FileList := { files : option (list File) }.

Record PermissionBody := {
  type : string;
  role : string;
  emailAddress : string
}.

Record FilesListParams := {
  q : option string;
  spaces : option string;
  list_fields : option string;
  orderBy : option string;
  pageSize : option Z
}.

(** The response object of a client call; the program reads [data]. *)
Record Response (A : Type) := { data : A }.
Arguments data {A} _.

(** The calls the program issues, as recorded in the trace. *)
Inductive call :=
| SpreadsheetsCreate (new_title : string) (fields : string)
| SpreadsheetsGet (spreadsheet : string)
| SpreadsheetsBatchUpdate (spreadsheet : string) (requests : list Request)
| SheetsCopyTo (spreadsheet : string) (sheet : option Z) (destination : string)
| ValuesGet (spreadsheet : string) (range : string)
| ValuesUpdate (spreadsheet : string) (range : string)
    (valueInputOption : string) (vals : grid)
| ValuesBatchUpdate (spreadsheet : string) (valueInputOption : string)
    (entries : list DataEntry)
| PermissionsCreate (fileId : string) (body : PermissionBody)
    (sendNotificationEmail : bool) (fields : string)
| FilesGet (fileId : string) (fields : string)
| FilesUpdate (fileId : string) (addParents removeParents : string)
    (fields : string)
| FilesList (params : FilesListParams).

Section Clients.
Variable W : Type.

(** An asynchronous client method: it transforms the collaborator's
    state and settles with a response or a rejection. *)
Definition method (A : Type) : Type := W -> settled (Response A) * W.

(** [sheets_v4.Sheets] *)
Record Sheets := {
  spreadsheets_create : string -> string -> method (option Spreadsheet);
  spreadsheets_get : string -> method Spreadsheet;
  spreadsheets_batchUpdate :
    string -> list Request -> method BatchUpdateSpreadsheetResponse;
  spreadsheets_sheets_copyTo :
    string -> option Z -> string -> method SheetProperties;
  spreadsheets_values_get : string -> string -> method ValueRange;
  spreadsheets_values_update :
    string -> string -> string -> grid -> method UpdateValuesResponse;
  spreadsheets_values_batchUpdate :
    string -> string -> list DataEntry -> method BatchUpdateValuesResponse
}.

(** [drive_v3.Drive] *)
Record Drive := {
  permissions_create :
    string -> PermissionBody -> bool -> string -> method Permission;
  files_get : string -> string -> method File;
  files_update : string -> string -> string -> string -> method File;
  files_list : FilesListParams -> method FileList
}.
End Clients.

End Api.

(* ================================================================== *)
(** ** types.ts *)
(* ================================================================== *)

Module Types.
Section Context.
Variable W : Type.

Record SpreadsheetContext := {
  sheets : Api.Sheets W;
  drive : Api.Drive W;
  folderId : option string
}.
End Context.
Arguments sheets {W} _.
Arguments drive {W} _.
Arguments folderId {W} _.
End Types.

(* ================================================================== *)
(** ** The running program: collaborator state, trace, console *)
(* ================================================================== *)

Module Runtime.

Inductive console_arg :=
| Text (s : string)
| Caught (e : Error).

Inductive console_line :=
| console_log (args : list console_arg)
| console_error (args : list console_arg).

Section State.
Context {W : Type}.

Record state := {
  world : W;
  sent : list Api.call;
  console : list console_line;
  unhandled : list Error
}.

(** Issues the client call [m], recorded in the trace as [c], and awaits
    it. *)
Definition invoke {A} (c : Api.call) (m : Api.method W A)
  : M state (Api.Response A) :=
  fun s =>
    let (r, w) := m (world s) in
    await r {| world := w;
               sent := sent s ++ [c];
               console := console s;
               unhandled := unhandled s |}.

(** A console write. *)
Definition print (l : console_line) : M state unit :=
  modify (fun s => {| world := world s;
                      sent := sent s;
                      console := console s ++ [l];
                      unhandled := unhandled s |}).

(** A call of an async function whose promise is neither awaited nor given
    a rejection handler: the caller continues with the promise object; a
    rejection stays unhandled. *)
Definition detach {A} (m : M state A) : M state unit :=
  fun s =>
    match m s with
    | (Return _, s') => (Return tt, s')
    | (Throw e, s') =>
        (Return tt, {| world := world s';
                       sent := sent s';
                       console := console s';
                       unhandled := unhandled s' ++ [e] |})
    | (Exit c, s') => (Exit c, s')
    end.
End State.
Arguments state W : clear implicits.

End Runtime.

Import Runtime.

(* ================================================================== *)
(** ** sheets.ts *)
(* ================================================================== *)

Module Sheets.
Import Api Types.

(** The result of [createSpreadSheet]. *)
Record Created := { id : string; link : option string }.

(** The result of [createSheet]. *)
Record CreatedSheet := {
  created_sheetId : option Z;
  created_title : option string;
  created_index : option Z;
  created_spreadsheetId : string
}.

(** One entry of [sheets] in the result of [spreadsheetInfo]. *)
Record SheetInfo := {
  info_sheet_title : option string;
  info_sheetId : option Z;
  info_gridProperties : option GridProperties
}.

(** The result of [spreadsheetInfo]. *)
Record Info := {
  info_title : option string;
  info_sheets : option (list SheetInfo)
}.

(** One entry of the result of [listSpreadsheets]. *)
Record Listed := { listed_id : option string; listed_title : option string }.

(** An element of [recipients]. *)
Record Recipient := { email_address : string; recipient_role : string }.

(** An element of [successes]. *)
Record Success := {
  success_email_address : string;
  success_role : string;
  permissionId : option string
}.

(** An element of [failures]. *)
Record Failure := { failure_email_address : string; error : string }.

(** The result of [shareSpreadsheet]. *)
Record Shared := { successes : list Success; failures : list Failure }.

(** The result of [copySheet] when the source sheet exists. *)
Record Copied := {
  copy : SheetProperties;
  rename : option BatchUpdateSpreadsheetResponse
}.

(** [s.properties?.title] *)
Definition title_of (s : Sheet) : option string :=
  match properties s with
  | Some p => title p
  | None => None
  end.

(** [s.properties?.sheetId] *)
Definition sheetId_of (s : Sheet) : option Z :=
  match properties s with
  | Some p => sheetId p
  | None => None
  end.

(** [s => s.properties?.title === sheetTitle] *)
Definition has_title (sheetTitle : string) (s : Sheet) : bool :=
  match title_of s with
  | Some t => String.eqb t sheetTitle
  | None => false
  end.

(** [meta.data.sheets?.find(s => s.properties?.title === sheetTitle)] *)
Definition find_sheet (meta : Spreadsheet) (sheetTitle : string)
  : option Sheet :=
  match Api.sheets meta with
  | Some l => find (has_title sheetTitle) l
  | None => None
  end.

(** [['reader','commenter','writer'].includes(role)] *)
Definition known_role (r : string) : bool :=
  existsb (String.eqb r) ["reader"; "commenter"; "writer"].

(** [!email_address || !['reader','commenter','writer'].includes(role)] *)
Definition invalid_entry (rec : Recipient) : bool :=
  negb (truthy_string (email_address rec)) || negb (known_role (recipient_role rec)).

(** [range ? `${sheet}!${range}` : sheet] *)
Definition fullRange (sheet : string) (range : any) : string :=
  if truthy_any range then sheet ^^ "!" ^^ toString range else sheet.

(** [file.data.parents?.join(",") || ""] *)
Definition previous_parents (f : File) : string :=
  match parents f with
  | Some l => join (fun x => x) l
  | None => ""
  end.

Section Handlers.
Context {W : Type}.
#[local] Abbreviation context_t := (option (SpreadsheetContext W)).
#[local] Abbreviation M := (Js.M (state W)).

(** [context.sheets] *)
Definition sheets_of (context : context_t) : M (Api.Sheets W) :=
  match context with
  | Some c => ret (Types.sheets c)
  | None => throw (undefined_property "sheets")
  end.

(** [context.drive] *)
Definition drive_of (context : context_t) : M (Api.Drive W) :=
  match context with
  | Some c => ret (Types.drive c)
  | None => throw (undefined_property "drive")
  end.

(** [context.folderId] *)
Definition folderId_of (context : context_t) : M (option string) :=
  match context with
  | Some c => ret (Types.folderId c)
  | None => throw (undefined_property "folderId")
  end.

(** [context.sheets.spreadsheets.get({ spreadsheetId })] *)
Definition get_meta (spreadsheetId : string) (context : context_t)
  : M (Response Spreadsheet) :=
  sh <- sheets_of context;;
  invoke (SpreadsheetsGet spreadsheetId) (spreadsheets_get W sh spreadsheetId).

(** [context.sheets.spreadsheets.batchUpdate({ spreadsheetId, requestBody })] *)
Definition send_batch (spreadsheetId : string) (requests : list Request)
    (context : context_t) : M (Response BatchUpdateSpreadsheetResponse) :=
  sh <- sheets_of context;;
  invoke (SpreadsheetsBatchUpdate spreadsheetId requests)
         (spreadsheets_batchUpdate W sh spreadsheetId requests).

(** The permission grant issued by [createSpreadSheet]. *)
Definition creator_grant : PermissionBody :=
  {| type := "user"; role := "writer"; emailAddress := "process.env.EMAIL_ID" |}.

Definition create_fields : string :=
  "spreadsheetId,properties,sheets,spreadsheetUrl".

Definition createSpreadSheet (title : string) (context : context_t)
  : M Created :=
  try_catch
    (sh <- sheets_of context;;
     spreadsheet <- invoke (SpreadsheetsCreate title create_fields)
                      (spreadsheets_create W sh title create_fields);;
     match data spreadsheet with
     | None =>
         throw (new_Error "Failed to create spreadsheet: No spreadsheet ID returned")
     | Some d =>
         if negb (truthy (spreadsheetId d)) then
           throw (new_Error "Failed to create spreadsheet: No spreadsheet ID returned")
         else
           let id := match spreadsheetId d with Some i => i | None => "" end in
           let link := spreadsheetUrl d in
           try_catch
             (dr <- drive_of context;;
              invoke (PermissionsCreate id creator_grant true "id")
                     (permissions_create W dr id creator_grant true "id");;;
              ret tt)
             (fun permissionError =>
                print (console_log [Text "Error granting permissions:";
                                    Caught permissionError]));;;
           folder <- folderId_of context;;
           (if truthy folder then
              let folderId := match folder with Some f => f | None => "" end in
              try_catch
                (dr <- drive_of context;;
                 file <- invoke (FilesGet id "parents")
                           (files_get W dr id "parents");;
                 let prev := previous_parents (data file) in
                 dr' <- drive_of context;;
                 invoke (FilesUpdate id folderId prev "id, parents")
                        (files_update W dr' id folderId prev "id, parents");;;
                 ret tt)
                (fun folderError =>
                   print (console_error [Text "Error moving to folder:";
                                         Caught folderError]))
            else ret tt);;;
           ret {| id := id; link := link |}
     end)
    (fun error =>
       print (console_error [Text "Error in createSpreadSheet:"; Caught error]);;;
       throw error).

Definition listSheets (spreadsheetId : string) (context : context_t)
  : M (list (option string)) :=
  meta <- get_meta spreadsheetId context;;
  ret (match Api.sheets (data meta) with
       | Some l => map title_of l
       | None => []
       end).

Definition renameSheet (spreadsheetId sheetTitle newName : string)
    (context : context_t)
  : M (string_or (Response BatchUpdateSpreadsheetResponse)) :=
  meta <- get_meta spreadsheetId context;;
  match find_sheet (data meta) sheetTitle with
  | None => ret (Str "Cannot find the sheet with the specified name")
  | Some sheetObj =>
      result <- send_batch spreadsheetId
                  [updateSheetProperties (sheetId_of sheetObj) newName "title"]
                  context;;
      ret (Obj result)
  end.
Definition createSheet (spreadsheetId title : string) (context : context_t)
  : M CreatedSheet :=
  result <- send_batch spreadsheetId [addSheet title] context;;
  props <- match replies (data result) with
           | None => throw (undefined_property "0")
           | Some [] => ret None
           | Some (reply :: _) =>
               match reply_addSheet reply with
               | None => throw (undefined_property "properties")
               | Some a => ret (addSheet_properties a)
               end
           end;;
  ret {| created_sheetId := match props with Some p => sheetId p | None => None end;
         created_title := match props with Some p => Api.title p | None => None end;
         created_index := match props with Some p => index p | None => None end;
         created_spreadsheetId := spreadsheetId |}.

Definition spreadsheetInfo (spreadsheetId : string) (context : context_t)
  : M Info :=
  meta <- get_meta spreadsheetId context;;
  ret {| info_title := match spreadsheet_properties (data meta) with
                       | Some p => spreadsheet_title p
                       | None => None
                       end;
         info_sheets :=
           match Api.sheets (data meta) with
           | Some l =>
               Some (map (fun s =>
                            {| info_sheet_title := title_of s;
                               info_sheetId := sheetId_of s;
                               info_gridProperties :=
                                 match properties s with
                                 | Some p => gridProperties p
                                 | None => None
                                 end |}) l)
           | None => None
           end |}.

Definition listSpreadsheets (context : context_t)
  : M (option (list Listed)) :=
  let query := "mimeType='application/vnd.google-apps.spreadsheet'" in
  folder <- folderId_of context;;
  let query := if truthy folder
               then query ^^ " and '" ^^ string_of_optional folder ^^ "' in parents"
               else query in
  dr <- drive_of context;;
  let params := {| q := Some query;
                   spaces := Some "drive";
                   list_fields := Some "files(id, name)";
                   orderBy := Some "modifiedTime desc";
                   pageSize := None |} in
  list <- invoke (FilesList params) (files_list W dr params);;
  ret (match files (data list) with
       | Some l => Some (map (fun f => {| listed_id := file_id f;
                                          listed_title := file_name f |}) l)
       | None => None
       end).

(** The body of the [for ... of recipients] loop of [shareSpreadsheet] and
    the [return] after it; [successes] and [failures] are the two arrays
    the loop pushes to. *)
Fixpoint share_each (spreadsheetId : string) (context : context_t)
    (recipients : list Recipient) (successes : list Success)
    (failures : list Failure) : M Shared :=
  match recipients with
  | [] => ret {| successes := successes; failures := failures |}
  | rec :: rest =>
      let email_address := email_address rec in
      let role := recipient_role rec in
      if invalid_entry rec then
        share_each spreadsheetId context rest successes
          (failures ++ [{| failure_email_address := email_address;
                           error := "Invalid Entry" |}])
      else
        let body := {| type := "user"; Api.role := role;
                       emailAddress := email_address |} in
        pushed <- try_catch
          (dr <- drive_of context;;
           perm <- invoke (PermissionsCreate spreadsheetId body true "id")
                     (permissions_create W dr spreadsheetId body true "id");;
           ret (successes ++ [{| success_email_address := email_address;
                                 success_role := role;
                                 permissionId := Api.id (data perm) |}],
                failures))
          (fun e =>
             ret (successes,
                  failures ++ [{| failure_email_address := email_address;
                                  error := message e |}]));;
        share_each spreadsheetId context rest (fst pushed) (snd pushed)
  end.

Definition shareSpreadsheet (spreadsheetId : string)
    (recipients : list Recipient) (context : context_t) : M Shared :=
  share_each spreadsheetId context recipients [] [].

Definition sheetData (spreadsheetId sheet : string) (range : any)
    (context : context_t) : M grid :=
  let fullRange := fullRange sheet range in
  sh <- sheets_of context;;
  result <- invoke (ValuesGet spreadsheetId fullRange)
              (spreadsheets_values_get W sh spreadsheetId fullRange);;
  ret (match values (data result) with
       | Some v => v
       | None => []
       end).

Definition updateCells (spreadsheetId sheet : string) (range : any)
    (data : grid) (context : context_t)
  : M (Response UpdateValuesResponse) :=
  let fullRange := fullRange sheet range in
  sh <- sheets_of context;;
  result <- invoke (ValuesUpdate spreadsheetId fullRange "USER_ENTERED" data)
              (spreadsheets_values_update W sh spreadsheetId fullRange
                 "USER_ENTERED" data);;
  ret result.

(** [([r, values]) => ({ range: `${sheet}!${r}`, values })] *)
Definition data_entry (sheet : string) (entry : string * any) : DataEntry :=
  {| entry_range := sheet ^^ "!" ^^ fst entry; entry_values := snd entry |}.

Definition batchUpdate (spreadsheetId sheet : string) (ranges : any)
    (context : context_t) : M BatchUpdateValuesResponse :=
  entries <- Object_entries ranges;;
  let data := map (data_entry sheet) entries in
  sh <- sheets_of context;;
  result <- invoke (ValuesBatchUpdate spreadsheetId "USER_ENTERED" data)
              (spreadsheets_values_batchUpdate W sh spreadsheetId
                 "USER_ENTERED" data);;
  ret (Api.data result).

(** The [insertDimension] request built by [addRows] and [addColumns]. *)
Definition insert_request (sheetId : option Z) (dim : Dimension)
    (count : Z) (start : option Z) : Request :=
  insertDimension
    {| range_sheetId := sheetId;
       dimension := dim;
       startIndex := number_or_zero start;
       endIndex := number_or_zero start + count |}
    (truthy_number start).

Definition addRows (spreadsheetId sheet : string) (count : Z)
    (startRow : option Z) (context : context_t)
  : M (string_or BatchUpdateSpreadsheetResponse) :=
  meta <- get_meta spreadsheetId context;;
  match find_sheet (data meta) sheet with
  | None => ret (Str "Sheet Not found")
  | Some sheetObj =>
      let sheetId := sheetId_of sheetObj in
      result <- send_batch spreadsheetId
                  [insert_request sheetId ROWS count startRow] context;;
      ret (Obj (data result))
  end.

Definition addColumns (spreadsheetId sheet : string) (count : Z)
    (startColumn : option Z) (context : context_t)
  : M (string_or BatchUpdateSpreadsheetResponse) :=
  meta <- get_meta spreadsheetId context;;
  match find_sheet (data meta) sheet with
  | None => ret (Str "Sheet not found")
  | Some sheetObj =>
      let sheetId := sheetId_of sheetObj in
      result <- send_batch spreadsheetId
                  [insert_request sheetId COLUMNS count startColumn] context;;
      ret (Obj (data result))
  end.

Definition copySheet (srcSpreadsheet srcSheet dstSpreadsheet dstSheet : string)
    (context : context_t) : M (string_or Copied) :=
  srcMeta <- get_meta srcSpreadsheet context;;
  match find_sheet (data srcMeta) srcSheet with
  | None => ret (Str "Source sheet not found")
  | Some sheetObj =>
      sh <- sheets_of context;;
      source <- match properties sheetObj with
                | Some p => ret (sheetId p)
                | None => throw (undefined_property "sheetId")
                end;;
      copyRes <- invoke (SheetsCopyTo srcSpreadsheet source dstSpreadsheet)
                   (spreadsheets_sheets_copyTo W sh srcSpreadsheet source
                      dstSpreadsheet);;
      let copyId := sheetId (data copyRes) in
      if truthy_string dstSheet
         && negb (match Api.title (data copyRes) with
                  | Some t => String.eqb t dstSheet
                  | None => false
                  end)
      then
        renameRes <- send_batch dstSpreadsheet
                       [updateSheetProperties copyId dstSheet "title"] context;;
        ret (Obj {| copy := data copyRes; rename := Some (data renameRes) |})
      else
        ret (Obj {| copy := data copyRes; rename := None |})
  end.
End Handlers.

End Sheets.

(* ================================================================== *)
(** ** index.ts: bootstrap, tool registrations, server start *)
(* ================================================================== *)

Module Server.
Import Api Types.

Definition SCOPES : list string :=
  ["https://www.googleapis.com/auth/spreadsheets";
   "https://www.googleapis.com/auth/drive";
   "https://www.googleapis.com/auth/drive.file"].

Definition TOKEN_PATH : string := "token.json".
Definition CREDENTIALS_PATH : string := "credentials.json".

(** The auth clients of google-auth-library the bootstrap constructs. *)
Inductive AuthClient :=
| JWT (email : any) (key : any) (scopes : list string)
| OAuth2 (client_id client_secret redirect_uri : any)
    (credentials : option any).

(** [oAuth2Client.setCredentials(tokens)] *)
Definition setCredentials (client : AuthClient) (tokens : any) : AuthClient :=
  match client with
  | OAuth2 i s r _ => OAuth2 i s r (Some tokens)
  | JWT e k sc => JWT e k sc
  end.

(** One text item of a tool result. *)
Record TextContent := { content_type : string; text : string }.

(** The value a tool callback returns. *)
Record Envelope := { content : list TextContent }.

(** [{ content: [{ type: "text", text }] }] *)
Definition text_result (text : string) : Envelope :=
  {| content := [{| content_type := "text"; text := text |}] |}.

(** A tool request whose arguments passed the registered schema. *)
Inductive CallTool :=
| tool_create (title : string)
| tool_listSheets (spreadsheetId : string)
| tool_renameSheet (spreadsheetId sheetTitle newSheetName : string)
| tool_createSheet (spreadsheetId title : string)
| tool_spreadsheetInfo (spreadsheetId : string)
| tool_listSpreadsheets
| tool_shareSpreadsheet (spreadsheetId : string)
    (recipients : list Sheets.Recipient)
| tool_sheetData (spreadsheetId sheetName range : string)
| tool_updateCells (spreadsheetId sheet range : string) (data : grid)
| tool_batchUpdate (spreadsheetId sheet : string) (ranges : list (list string))
| tool_addRows (spreadsheetId sheet : string) (count startRow : Z)
| tool_addColumns (spreadsheetId sheet : string) (count startColumn : Z)
| tool_copySheet (srcSpreadsheet srcSheet dstSpreadsheet dstSheet : string).

(** The name a request is registered under. *)
Definition tool_name (c : CallTool) : string :=
  match c with
  | tool_create _ => "create"
  | tool_listSheets _ => "listSheets"
  | tool_renameSheet _ _ _ => "renameSheet"
  | tool_createSheet _ _ => "createSheet"
  | tool_spreadsheetInfo _ => "spreadsheetInfo"
  | tool_listSpreadsheets => "listSpreadsheets"
  | tool_shareSpreadsheet _ _ => "shareSpreadsheet"
  | tool_sheetData _ _ _ => "sheetData"
  | tool_updateCells _ _ _ _ => "updateCells"
  | tool_batchUpdate _ _ _ => "batchUpdate"
  | tool_addRows _ _ _ _ => "addRows"
  | tool_addColumns _ _ _ _ => "addColumns"
  | tool_copySheet _ _ _ _ => "copySheet"
  end.

(** A [string[][]] argument as a JavaScript value. *)
Definition array_of_rows (rows : list (list string)) : any :=
  JArray (map (fun row => JArray (map JString row)) rows).

(** Rendering of an array of objects by a template literal. *)
Definition objects_toString {A : Type} (l : list A) : string :=
  join (fun _ => "[object Object]") l.

(** Rendering of a pending promise by a template literal. *)
Definition promise_toString : string := "[object Promise]".

Section Process.
Context {W : Type}.

(** What the bootstrap reads from its surroundings: the environment
    variables, the operator at the terminal, and the library functions
    whose results the program does not control. *)
Record Env := {
  CREDENTIALS_CONFIG : option string;
  env_DRIVE_FOLDER_ID : option string;
  base64_decode : string -> string;
  JSON_parse : string -> settled any;
  JSON_stringify : any -> string;
  authorize : AuthClient -> settled unit;
  google_sheets : AuthClient -> Api.Sheets W;
  google_drive : AuthClient -> Api.Drive W;
  generateAuthUrl : AuthClient -> string;
  answer : string;
  trim : string -> string;
  getToken : AuthClient -> string -> settled any;
  connect : settled unit
}.

(** The process: the module variable [context], the running state shared
    with [sheets.ts], the files on disk, and the asynchronous operations
    the bootstrap has been suspended on. *)
Record process := {
  context : option (SpreadsheetContext W);
  run : state W;
  disk : string -> option string;
  waits : list string
}.

#[local] Abbreviation M := (Js.M process).

(** Code of [sheets.ts] and console writes, run inside the process. *)
Definition lift {A} (m : Js.M (state W) A) : M A :=
  fun p =>
    let (r, s) := m (run p) in
    (r, {| context := context p; run := s; disk := disk p; waits := waits p |}).

(** [context = c] *)
Definition set_context (c : SpreadsheetContext W) : M unit :=
  modify (fun p => {| context := Some c; run := run p; disk := disk p;
                      waits := waits p |}).

(** [fs.existsSync(path)] *)
Definition existsSync (path : string) : M bool :=
  gets (fun p => match disk p path with Some _ => true | None => false end).

(** [fs.readFileSync(path, 'utf-8')] *)
Definition readFileSync (path : string) : M string :=
  fun p =>
    match disk p path with
    | Some text => (Return text, p)
    | None =>
        (Throw (new_Error ("ENOENT: no such file or directory, open '"
                           ^^ path ^^ "'")), p)
    end.

(** [fs.writeFileSync(path, text)] *)
Definition writeFileSync (path text : string) : M unit :=
  modify (fun p => {| context := context p; run := run p;
                      disk := fun f => if String.eqb f path then Some text
                                       else disk p f;
                      waits := waits p |}).

(** The function is suspended on the asynchronous operation [what]; other
    events of the process can be handled until it settles. *)
Definition suspend (what : string) : M unit :=
  modify (fun p => {| context := context p; run := run p; disk := disk p;
                      waits := waits p ++ [what] |}).

(** [process.env.DRIVE_FOLDER_ID || ""] *)
Definition DRIVE_FOLDER_ID (env : Env) : string :=
  match env_DRIVE_FOLDER_ID env with
  | Some s => s
  | None => ""
  end.

(** The object assigned to [context] for the auth client [auth]. *)
Definition new_context (env : Env) (auth : AuthClient)
  : SpreadsheetContext W :=
  {| sheets := google_sheets env auth;
     drive := google_drive env auth;
     folderId := if truthy_string (DRIVE_FOLDER_ID env)
                 then Some (DRIVE_FOLDER_ID env) else None |}.

(** The [if (CREDENTIALS_CONFIG) { try { ... return; } catch { ... } }]
    block of [initContext]; the result is [true] when the function has
    returned. *)
Definition service_credentials (env : Env) : M bool :=
  match CREDENTIALS_CONFIG env with
  | Some config =>
      if truthy_string config then
        try_catch
          (let credentialsJson := base64_decode env config in
           key <- await (JSON_parse env credentialsJson);;
           client_email <- get_property key "client_email";;
           private_key <- get_property key "private_key";;
           let authClient := JWT client_email private_key SCOPES in
           suspend "authorize";;;
           await (authorize env authClient);;;
           set_context (new_context env authClient);;;
           ret true)
          (fun error =>
             lift (print (console_error
                            [Text "Error with credentials from environment:";
                             Caught error]));;;
             ret false)
      else ret false
  | None => ret false
  end.

(** [{ pageSize: 1 }] *)
Definition probe_params : FilesListParams :=
  {| q := None; spaces := None; list_fields := None; orderBy := None;
     pageSize := Some 1 |}.

(** The [if (fs.existsSync(TOKEN_PATH)) { ... }] block: the client after
    [setCredentials], and [true] when the function has returned. *)
Definition saved_token (env : Env) (oAuth2Client : AuthClient)
  : M (bool * AuthClient) :=
  present <- existsSync TOKEN_PATH;;
  if present then
    lift (print (console_log [Text "Using saved token"]));;;
    tokenContent <- readFileSync TOKEN_PATH;;
    tokens <- await (JSON_parse env tokenContent);;
    let oAuth2Client := setCredentials oAuth2Client tokens in
    try_catch
      (let drive := google_drive env oAuth2Client in
       suspend "drive.files.list";;;
       lift (invoke (FilesList probe_params) (files_list W drive probe_params));;;
       lift (print (console_log
                      [Text "OAuth authentication successful with saved token"]));;;
       set_context (new_context env oAuth2Client);;;
       ret (true, oAuth2Client))
      (fun tokenError =>
         lift (print (console_error
                        [Text "Saved token is invalid, generating new one:";
                         Caught tokenError]));;;
         ret (false, oAuth2Client))
  else ret (false, oAuth2Client).

(** The body of [if (fs.existsSync(CREDENTIALS_PATH)) { ... }]. *)
Definition oauth_credentials (env : Env) : M unit :=
  lift (print (console_log [Text "Using OAuth credentials from file"]));;;
  try_catch
    (credentialContent <- readFileSync CREDENTIALS_PATH;;
     credentials <- await (JSON_parse env credentialContent);;
     installed <- get_property credentials "installed";;
     clientConfig <- (if truthy_any installed then ret installed
                      else get_property credentials "web");;
     if negb (truthy_any clientConfig) then
       throw (new_Error
                "Invalid credentials format - missing installed or web configuration")
     else
       client_secret <- get_property clientConfig "client_secret";;
       client_id <- get_property clientConfig "client_id";;
       redirect_uris <- get_property clientConfig "redirect_uris";;
       redirect_uri <- get_property redirect_uris "0";;
       let oAuth2Client := OAuth2 client_id client_secret redirect_uri None in
       saved <- saved_token env oAuth2Client;;
       if fst saved then ret tt
       else
         let oAuth2Client := snd saved in
         let authUrl := generateAuthUrl env oAuth2Client in
         lift (print (console_log
                        [Text "Authorize this app by visiting this URL:";
                         Text authUrl]));;;
         suspend "rl.question";;;
         let code := trim env (answer env) in
         try_catch
           (suspend "getToken";;;
            tokens <- await (getToken env oAuth2Client code);;
            let oAuth2Client := setCredentials oAuth2Client tokens in
            writeFileSync TOKEN_PATH (JSON_stringify env tokens);;;
            lift (print (console_log [Text "Token stored to"; Text TOKEN_PATH]));;;
            set_context (new_context env oAuth2Client);;;
            ret tt)
           (fun tokenError =>
              lift (print (console_error
                             [Text "Error getting token:"; Caught tokenError]));;;
              throw (new_Error
                       "Authentication failed: Could not get valid token")))
    (fun error =>
       lift (print (console_error [Text "Error in OAuth flow:"; Caught error]));;;
       throw (new_Error "Authentication failed: OAuth process error")).

Definition initContext (env : Env) : M unit :=
  try_catch
    (returned <- service_credentials env;;
     if returned then ret tt
     else
       present <- existsSync CREDENTIALS_PATH;;
       if present then oauth_credentials env
       else throw (new_Error "No valid authentication method available"))
    (fun error =>
       lift (print (console_error
                      [Text "Failed to initialize context:"; Caught error]));;;
       process_exit 1).

(** *** The registered tool callbacks *)

Definition create_tool (title : string) : M Envelope :=
  try_catch
    (lift (print (console_log
                    [Text ("Creating spreadsheet with title: " ^^ title)]));;;
     context <- gets context;;
     created <- lift (Sheets.createSpreadSheet title context);;
     ret (text_result ("Created spreadsheet successfully with id: "
                       ^^ Sheets.id created ^^ ". Visit at "
                       ^^ string_of_optional (Sheets.link created))))
    (fun error =>
       lift (print (console_error
                      [Text "Error creating spreadsheet:"; Caught error]));;;
       ret (text_result ("Failed to create spreadsheet: "
                         ^^ Error_toString error))).

Definition listSheets_tool (spreadsheetId : string) : M Envelope :=
  context <- gets context;;
  res <- lift (Sheets.listSheets spreadsheetId context);;
  ret (text_result ("List of all the sheets present: "
                    ^^ join (fun t => match t with
                                      | Some s => s
                                      | None => ""
                                      end) res)).

Definition renameSheet_tool (spreadsheetId sheetTitle newSheetName : string)
  : M Envelope :=
  context <- gets context;;
  res <- lift (Sheets.renameSheet spreadsheetId sheetTitle newSheetName context);;
  match res with
  | Str s =>
      if String.eqb s "Cannot find the sheet with the specified name"
      then ret (text_result "Cannot find the sheet with the provided name")
      else ret (text_result "Sheet renamed successfully!")
  | Obj _ => ret (text_result "Sheet renamed successfully!")
  end.

Definition createSheet_tool (spreadsheetId title : string) : M Envelope :=
  context <- gets context;;
  res <- lift (Sheets.createSheet spreadsheetId title context);;
  ret (text_result ("Following sheet was created: " ^^ "[object Object]")).

Definition spreadsheetInfo_tool (spreadsheetId : string) : M Envelope :=
  context <- gets context;;
  res <- lift (Sheets.spreadsheetInfo spreadsheetId context);;
  ret (text_result ("Spreadsheet Info: " ^^ "[object Object]")).

Definition listSpreadsheets_tool : M Envelope :=
  context <- gets context;;
  res <- lift (Sheets.listSpreadsheets context);;
  ret (text_result ("List of spreadsheets: "
                    ^^ match res with
                       | Some l => objects_toString l
                       | None => "undefined"
                       end)).

Definition shareSpreadsheet_tool (spreadsheetId : string)
    (recipients : list Sheets.Recipient) : M Envelope :=
  context <- gets context;;
  shared <- lift (Sheets.shareSpreadsheet spreadsheetId recipients context);;
  ret (text_result ("Following are the successes: "
                    ^^ objects_toString (Sheets.successes shared)
                    ^^ " and failures: "
                    ^^ objects_toString (Sheets.failures shared))).

Definition sheetData_tool (spreadsheetId sheetName range : string)
  : M Envelope :=
  context <- gets context;;
  res <- lift (Sheets.sheetData spreadsheetId sheetName (JString range) context);;
  ret (text_result ("The data is: " ^^ join (join (fun cell => cell)) res)).

Definition updateCells_tool (spreadsheetId sheet range : string) (data : grid)
  : M Envelope :=
  context <- gets context;;
  lift (detach (Sheets.updateCells spreadsheetId sheet (JString range) data
                  context));;;
  ret (text_result ("Data was updated successfully." ^^ promise_toString)).

Definition batchUpdate_tool (spreadsheetId sheet : string)
    (ranges : list (list string)) : M Envelope :=
  context <- gets context;;
  lift (detach (Sheets.batchUpdate spreadsheetId sheet (array_of_rows ranges)
                  context));;;
  ret (text_result ("The values were updated: " ^^ promise_toString)).

Definition addRows_tool (spreadsheetId sheet : string) (count startRow : Z)
  : M Envelope :=
  context <- gets context;;
  lift (detach (Sheets.addRows spreadsheetId sheet count (Some startRow)
                  context));;;
  ret (text_result "The rows were added successfully!").

Definition addColumns_tool (spreadsheetId sheet : string)
    (count startColumn : Z) : M Envelope :=
  context <- gets context;;
  lift (detach (Sheets.addColumns spreadsheetId sheet count (Some startColumn)
                  context));;;
  ret (text_result "The columns were added successfully!").

Definition copySheet_tool
    (srcSpreadsheet srcSheet dstSpreadsheet dstSheet : string) : M Envelope :=
  context <- gets context;;
  lift (detach (Sheets.copySheet srcSpreadsheet srcSheet dstSpreadsheet
                  dstSheet context));;;
  ret (text_result ("Sheet was successfully copied to destination sheet. "
                    ^^ promise_toString)).

(** The callback a request is routed to. *)
Definition tool_callback (c : CallTool) : M Envelope :=
  match c with
  | tool_create title => create_tool title
  | tool_listSheets spreadsheetId => listSheets_tool spreadsheetId
  | tool_renameSheet spreadsheetId sheetTitle newSheetName =>
      renameSheet_tool spreadsheetId sheetTitle newSheetName
  | tool_createSheet spreadsheetId title => createSheet_tool spreadsheetId title
  | tool_spreadsheetInfo spreadsheetId => spreadsheetInfo_tool spreadsheetId
  | tool_listSpreadsheets => listSpreadsheets_tool
  | tool_shareSpreadsheet spreadsheetId recipients =>
      shareSpreadsheet_tool spreadsheetId recipients
  | tool_sheetData spreadsheetId sheetName range =>
      sheetData_tool spreadsheetId sheetName range
  | tool_updateCells spreadsheetId sheet range data =>
      updateCells_tool spreadsheetId sheet range data
  | tool_batchUpdate spreadsheetId sheet ranges =>
      batchUpdate_tool spreadsheetId sheet ranges
  | tool_addRows spreadsheetId sheet count startRow =>
      addRows_tool spreadsheetId sheet count startRow
  | tool_addColumns spreadsheetId sheet count startColumn =>
      addColumns_tool spreadsheetId sheet count startColumn
  | tool_copySheet srcSpreadsheet srcSheet dstSpreadsheet dstSheet =>
      copySheet_tool srcSpreadsheet srcSheet dstSpreadsheet dstSheet
  end.

(** *** startServer and the life of the process *)

(** Where [startServer] stands: before [server.connect] has settled; with
    the transport connected and [initContext] not yet settled; after
    [initContext] has returned; after [process.exit]. *)
Inductive stage :=
| Starting
| Listening
| Ready
| Stopped (code : Z).

(** A request the transport delivered to its callback. *)
Record Served := {
  request : CallTool;
  context_defined : bool;
  outcome : completion Envelope
}.

Record server := {
  proc : process;
  at_stage : stage;
  served : list Served
}.

(** What the event loop hands to the program. *)
Inductive event :=
| Connected
| Initialised
| Incoming (c : CallTool).

(** The [catch] block of [startServer]. *)
Definition start_failed (error : Error) (p : process) : process :=
  snd (lift (print (console_error [Text "Failed to start server:"; Caught error]))
         p).

(** Whether [initContext], started in [p], is suspended on an asynchronous
    operation before it settles. *)
Definition bootstrap_suspends (env : Env) (p : process) : bool :=
  negb (Nat.eqb (List.length (waits (snd (initContext env p))))
               (List.length (waits p))).

(** The callback of [c] runs against the current value of [context]. *)
Definition serve (c : CallTool) (s : server) : server :=
  let (r, p) := tool_callback c (proc s) in
  {| proc := p;
     at_stage := at_stage s;
     served := served s ++
               [{| request := c;
                   context_defined := match context (proc s) with
                                      | Some _ => true
                                      | None => false
                                      end;
                   outcome := r |}] |}.

(** One turn of the event loop; [None] when the event cannot occur at this
    stage.  [startServer] awaits [server.connect(transport)] and then
    [initContext()]; a connected transport delivers requests whenever the
    program is suspended. *)
Definition handle (env : Env) (e : event) (s : server) : option server :=
  match e, at_stage s with
  | Connected, Starting =>
      match connect env with
      | Fulfilled _ =>
          Some {| proc := proc s; at_stage := Listening; served := served s |}
      | Rejected error =>
          Some {| proc := start_failed error (proc s);
                  at_stage := Stopped 1;
                  served := served s |}
      end
  | Initialised, Listening =>
      match initContext env (proc s) with
      | (Return _, p) =>
          Some {| proc := p; at_stage := Ready; served := served s |}
      | (Throw error, p) =>
          Some {| proc := start_failed error p;
                  at_stage := Stopped 1;
                  served := served s |}
      | (Exit code, p) =>
          Some {| proc := p; at_stage := Stopped code; served := served s |}
      end
  | Incoming c, Listening =>
      if bootstrap_suspends env (proc s) then Some (serve c s) else None
  | Incoming c, Ready => Some (serve c s)
  | _, _ => None
  end.

(** A sequence of turns. *)
Fixpoint handle_all (env : Env) (es : list event) (s : server)
  : option server :=
  match es with
  | [] => Some s
  | e :: es' =>
      match handle env e s with
      | Some s' => handle_all env es' s'
      | None => None
      end
  end.

(** The process as it starts: [context] is declared and not assigned. *)
Definition boot (w : W) (disk : string -> option string) : server :=
  {| proc := {| context := None;
                run := {| world := w; sent := []; console := [];
                          unhandled := [] |};
                disk := disk;
                waits := [] |};
     at_stage := Starting;
     served := [] |}.
End Process.

Arguments Env W : clear implicits.
Arguments process W : clear implicits.
Arguments server W : clear implicits.

End Server.

(* ================================================================== *)
(** ** A small collaborator to run the program against *)
(* ================================================================== *)

Module Demo.
Import Api Types.

Definition quota : Error := new_Error "Quota exceeded".

Definition tab (t : string) (i : Z) : Sheet :=
  {| properties := Some {| sheetId := Some i; title := Some t;
                           index := None; gridProperties := None |} |}.

Definition book : Spreadsheet :=
  {| spreadsheetId := Some "S1";
     spreadsheet_properties := Some {| spreadsheet_title := Some "Budget" |};
     Api.sheets := Some [tab "Data" 4; tab "Sheet1" 7; tab "Sheet1" 9];
     spreadsheetUrl := Some "https://docs.google.com/spreadsheets/d/S1" |}.

(** The collaborator's state counts the calls it has received. *)
Definition accept {A : Type} (a : A) : method nat A :=
  fun w => (Fulfilled {| data := a |}, S w).

Definition reject {A : Type} : method nat A :=
  fun w => (Rejected quota, S w).

Definition accepting_sheets : Sheets nat :=
  {| spreadsheets_create := fun _ _ => accept (Some book);
     spreadsheets_get := fun _ => accept book;
     spreadsheets_batchUpdate := fun _ _ => accept {| replies := Some [] |};
     spreadsheets_sheets_copyTo := fun _ i _ =>
       accept {| sheetId := Some 21; title := Some "Copy of Sheet1";
                 index := None; gridProperties := None |};
     spreadsheets_values_get := fun _ _ => accept {| values := None |};
     spreadsheets_values_update := fun _ _ _ _ =>
       accept {| updatedCells := Some 4 |};
     spreadsheets_values_batchUpdate := fun _ _ _ =>
       accept {| totalUpdatedCells := Some 4 |} |}.

Definition rejecting_sheets : Sheets nat :=
  {| spreadsheets_create := fun _ _ => reject;
     spreadsheets_get := fun _ => reject;
     spreadsheets_batchUpdate := fun _ _ => reject;
     spreadsheets_sheets_copyTo := fun _ _ _ => reject;
     spreadsheets_values_get := fun _ _ => reject;
     spreadsheets_values_update := fun _ _ _ _ => reject;
     spreadsheets_values_batchUpdate := fun _ _ _ => reject |}.

(** A Drive that refuses to grant anything to [nobody@example.com]. *)
Definition accepting_drive : Drive nat :=
  {| permissions_create := fun _ body _ _ =>
       if String.eqb (emailAddress body) "nobody@example.com" then reject
       else accept {| id := Some "perm-1" |};
     files_get := fun _ _ =>
       accept {| file_id := Some "S1"; file_name := None;
                 parents := Some ["root"] |};
     files_update := fun _ _ _ _ =>
       accept {| file_id := Some "S1"; file_name := None; parents := None |};
     files_list := fun _ => accept {| files := Some [] |} |}.

Definition rejecting_drive : Drive nat :=
  {| permissions_create := fun _ _ _ _ => reject;
     files_get := fun _ _ => reject;
     files_update := fun _ _ _ _ => reject;
     files_list := fun _ => reject |}.

Definition accepting : SpreadsheetContext nat :=
  {| sheets := accepting_sheets; drive := accepting_drive;
     folderId := Some "F1" |}.

Definition rejecting : SpreadsheetContext nat :=
  {| sheets := rejecting_sheets; drive := rejecting_drive;
     folderId := None |}.

(** A spreadsheet can be created, nothing else works. *)
Definition create_only : SpreadsheetContext nat :=
  {| sheets := accepting_sheets; drive := rejecting_drive;
     folderId := Some "F1" |}.

(** A Drive that grants whatever it is asked. *)
Definition granting_drive : Drive nat :=
  {| permissions_create := fun _ _ _ _ => accept {| id := Some "perm-1" |};
     files_get := fun _ _ =>
       accept {| file_id := Some "S1"; file_name := None;
                 parents := Some ["root"; "shared"] |};
     files_update := fun _ _ _ _ =>
       accept {| file_id := Some "S1"; file_name := None; parents := None |};
     files_list := fun _ => accept {| files := Some [] |} |}.

(** A collaborator that keeps the grids written to it, newest first, under
    the spreadsheet and range they were written to. *)
Definition kept (spreadsheet range : string) (w : list (string * grid))
  : option grid :=
  match find (fun e => String.eqb (fst e) (spreadsheet ^^ "/" ^^ range)) w with
  | Some e => Some (snd e)
  | None => None
  end.

Definition keeping_sheets : Sheets (list (string * grid)) :=
  {| spreadsheets_create := fun _ _ w => (Rejected quota, w);
     spreadsheets_get := fun _ w => (Rejected quota, w);
     spreadsheets_batchUpdate := fun _ _ w => (Rejected quota, w);
     spreadsheets_sheets_copyTo := fun _ _ _ w => (Rejected quota, w);
     spreadsheets_values_get := fun i r w =>
       (Fulfilled {| data := {| values := kept i r w |} |}, w);
     spreadsheets_values_update := fun i r _ v w =>
       (Fulfilled {| data := {| updatedCells := None |} |},
        (i ^^ "/" ^^ r, v) :: w);
     spreadsheets_values_batchUpdate := fun _ _ _ w => (Rejected quota, w) |}.

Definition keeping : SpreadsheetContext (list (string * grid)) :=
  {| sheets := keeping_sheets;
     drive := {| permissions_create := fun _ _ _ _ w => (Rejected quota, w);
                 files_get := fun _ _ w => (Rejected quota, w);
                 files_update := fun _ _ _ _ w => (Rejected quota, w);
                 files_list := fun _ w => (Rejected quota, w) |};
     folderId := None |}.

(** A context without destination folder. *)
Definition generous : SpreadsheetContext nat :=
  {| sheets := accepting_sheets; drive := granting_drive; folderId := None |}.

Definition fresh : state nat :=
  {| world := O; sent := []; console := []; unhandled := [] |}.

(** A directory without [credentials.json] and [token.json]. *)
Definition empty_disk : string -> option string := fun _ => None.

(** A directory holding an OAuth client descriptor and a saved token. *)
Definition oauth_disk : string -> option string :=
  fun f =>
    if String.eqb f "credentials.json" then Some "oauth-client"
    else if String.eqb f "token.json" then Some "saved-token"
    else None.

(** A process whose [context] is [c]. *)
Definition ready (c : SpreadsheetContext nat) : Server.process nat :=
  {| Server.context := Some c; Server.run := fresh;
     Server.disk := empty_disk; Server.waits := [] |}.

(** A process whose [context] has not been assigned. *)
Definition unassigned (disk : string -> option string) : Server.process nat :=
  {| Server.context := None; Server.run := fresh;
     Server.disk := disk; Server.waits := [] |}.

Definition service_key : any :=
  JObject [("client_email", JString "svc@example.iam.gserviceaccount.com");
           ("private_key", JString "PEM")].

Definition oauth_client : any :=
  JObject [("installed",
            JObject [("client_id", JString "id");
                     ("client_secret", JString "secret");
                     ("redirect_uris", JArray [JString "http://localhost"])])].

Definition token : any :=
  JObject [("access_token", JString "ya29"); ("refresh_token", JString "1//0")].

Definition parse (text : string) : settled any :=
  if String.eqb text "key" then Fulfilled service_key
  else if String.eqb text "oauth-client" then Fulfilled oauth_client
  else if String.eqb text "saved-token" then Fulfilled token
  else Rejected {| name := "SyntaxError"; message := "Unexpected token" |}.

(** Surroundings with the service credential [config], whose handshake
    the identity provider accepts or not. *)
Definition surroundings (config : option string) (accepted : bool)
  : Server.Env nat :=
  {| Server.CREDENTIALS_CONFIG := config;
     Server.env_DRIVE_FOLDER_ID := Some "F1";
     Server.base64_decode := fun _ => "key";
     Server.JSON_parse := parse;
     Server.JSON_stringify := fun _ => "saved-token";
     Server.authorize := fun _ =>
       if accepted then Fulfilled tt else Rejected (new_Error "invalid_grant");
     Server.google_sheets := fun _ => accepting_sheets;
     Server.google_drive := fun _ => accepting_drive;
     Server.generateAuthUrl := fun _ =>
       "https://accounts.google.com/o/oauth2/v2/auth";
     Server.answer := " 4/0Ab ";
     Server.trim := fun _ => "4/0Ab";
     Server.getToken := fun _ _ => Fulfilled token;
     Server.connect := Fulfilled tt |}.

(** Surroundings in which the transport cannot be connected. *)
Definition offline : Server.Env nat :=
  {| Server.CREDENTIALS_CONFIG := Some "a2V5";
     Server.env_DRIVE_FOLDER_ID := None;
     Server.base64_decode := fun _ => "key";
     Server.JSON_parse := parse;
     Server.JSON_stringify := fun _ => "saved-token";
     Server.authorize := fun _ => Fulfilled tt;
     Server.google_sheets := fun _ => accepting_sheets;
     Server.google_drive := fun _ => accepting_drive;
     Server.generateAuthUrl := fun _ =>
       "https://accounts.google.com/o/oauth2/v2/auth";
     Server.answer := "";
     Server.trim := fun t => t;
     Server.getToken := fun _ _ => Rejected quota;
     Server.connect := Rejected (new_Error "stdin closed") |}.

End Demo.

(* ================================================================== *)
(** ** What the handlers are checked against *)
(* ================================================================== *)

Module Spec.
Import Api Types Sheets.

(** [r] is the first sheet of [l] titled exactly [t], or nothing when no
    sheet of [l] is titled [t]. *)
Definition first_titled (t : string) (l : list Sheet) (r : option Sheet)
  : Prop :=
  match r with
  | Some s =>
      exists before after,
        l = before ++ s :: after /\
        title_of s = Some t /\
        Forall (fun s' => title_of s' <> Some t) before
  | None => Forall (fun s' => title_of s' <> Some t) l
  end.

(** The sheets listed by the metadata, none when the list is absent. *)
Definition listed_sheets (meta : Spreadsheet) : list Sheet :=
  match Api.sheets meta with
  | Some l => l
  | None => []
  end.

Section Resolution.
Context {W : Type}.

(** How an operation [op] that resolves [sheetTitle] in [spreadsheetId]
    behaves from state [s]: a rejected metadata fetch is rethrown; an
    unknown title yields the string [sentinel] after the fetch alone; a
    known title never yields a string. *)
Definition reports_unknown_sheet {A : Type} (op : Js.M (state W) (string_or A))
    (c : SpreadsheetContext W) (spreadsheetId sheetTitle sentinel : string)
    (s : state W) : Prop :=
  match spreadsheets_get W (sheets c) spreadsheetId (world s) with
  | (Rejected e, w) => fst (op s) = Throw e
  | (Fulfilled meta, w) =>
      match find_sheet (data meta) sheetTitle with
      | None =>
          op s = (Return (Str sentinel),
                  {| world := w;
                     sent := sent s ++ [SpreadsheetsGet spreadsheetId];
                     console := console s;
                     unhandled := unhandled s |})
      | Some _ => forall t, fst (op s) <> Return (Str t)
      end
  end.
End Resolution.

(** The call by which [shareSpreadsheet] grants access to one recipient. *)
Definition grant_call (spreadsheetId : string) (rec : Recipient) : call :=
  PermissionsCreate spreadsheetId
    {| type := "user"; role := recipient_role rec;
       emailAddress := email_address rec |}
    true "id".

(** [successes] and [failures] split [recipients] in order: an invalid
    entry is a failure with reason 'Invalid Entry'; a valid entry is a
    success with its role, or a failure. *)
Inductive outcomes
  : list Recipient -> list Success -> list Failure -> Prop :=
| outcomes_nil : outcomes [] [] []
| outcomes_invalid rec rest ss fs :
    invalid_entry rec = true ->
    outcomes rest ss fs ->
    outcomes (rec :: rest) ss
      ({| failure_email_address := email_address rec;
          error := "Invalid Entry" |} :: fs)
| outcomes_granted rec rest ss fs perm :
    invalid_entry rec = false ->
    outcomes rest ss fs ->
    outcomes (rec :: rest)
      ({| success_email_address := email_address rec;
          success_role := recipient_role rec;
          permissionId := perm |} :: ss) fs
| outcomes_refused rec rest ss fs reason :
    invalid_entry rec = false ->
    outcomes rest ss fs ->
    outcomes (rec :: rest) ss
      ({| failure_email_address := email_address rec;
          error := reason |} :: fs).

Section Bootstrap.
Context {W : Type}.


(** Started with [context] unassigned, [m] does not exit; it leaves
    [context] assigned exactly when it returns a value that [assigns]
    holds of, and unassigned when it throws. *)
Definition settles {A : Type} (assigns : A -> bool)
    (m : Js.M (Server.process W) A) : Prop :=
  forall p,
    Server.context p = None ->
    match m p with
    | (Return a, p') =>
        if assigns a then Server.context p' <> None
        else Server.context p' = None
    | (Throw _, p') => Server.context p' = None
    | (Exit _, _) => False
    end.
End Bootstrap.

(** What [createSpreadSheet] returns for the response [r] of
    [spreadsheets.create], when [r] carries a non-empty id. *)
Definition created_of (r : Response (option Spreadsheet)) : option Created :=
  match data r with
  | Some d =>
      match spreadsheetId d with
      | Some i =>
          if truthy_string i
          then Some {| id := i; link := spreadsheetUrl d |}
          else None
      | None => None
      end
  | None => None
  end.

(** The calls that only read from the collaborator. *)
Definition is_read (c : call) : bool :=
  match c with
  | SpreadsheetsGet _ => true
  | ValuesGet _ _ => true
  | FilesGet _ _ => true
  | FilesList _ => true
  | _ => false
  end.


(** Every run of [m] takes the process to a state related to the one it
    started in. *)
Definition related {W A : Type}
    (R : Server.process W -> Server.process W -> Prop)
    (m : Js.M (Server.process W) A) : Prop :=
  forall p, R p (snd (m p)).

End Spec.

(* ================================================================== *)
(** ** Properties of sheets.ts *)
(* ================================================================== *)

Import Api Types Sheets Server Spec.

(** Unfolds the control operators so that a handler reduces to a case
    analysis on what the collaborator answers. *)
Ltac run :=
  unfold get_meta, send_batch, sheets_of, drive_of, folderId_of, invoke, print,
    detach, Object_entries, get_property, try_catch, bind, ret, throw, await,
    modify, gets;
  simpl.

(** Case analysis on the answer of a client method. *)
Ltac answer m :=
  let r := fresh "r" in
  let e := fresh "e" in
  let w := fresh "w" in
  destruct m as [[r | e] w]; simpl.

(** Case analysis on every answer of the collaborator and every test the
    code makes, until the goal is closed by computation. *)
Ltac crack :=
  repeat (simpl;
          match goal with
          | |- context [let (_, _) := ?m in _] => answer m
          | |- context [match ?x with _ => _ end] =>
              lazymatch x with
              | context [match _ with _ => _ end] => fail
              | _ => destruct x eqn:?
              end
          end);
  simpl.

Lemma has_title_true t s : has_title t s = true <-> title_of s = Some t.
Proof.
  unfold has_title. destruct (title_of s) as [u |].
  - rewrite String.eqb_eq. split; congruence.
  - split; discriminate.
Qed.

Lemma has_title_false t s : has_title t s = false <-> title_of s <> Some t.
Proof.
  rewrite <- has_title_true. destruct (has_title t s); split; congruence.
Qed.

Lemma find_first_titled t l : first_titled t l (find (has_title t) l).
Proof.
  induction l as [| s l IH]; simpl.
  - constructor.
  - destruct (has_title t s) eqn:Hs.
    + exists [], l. repeat split; [now apply has_title_true | constructor].
    + apply has_title_false in Hs.
      destruct (find (has_title t) l) as [r |]; simpl in *.
      * destruct IH as (before & after & -> & Ht & Hb).
        exists (s :: before), after. repeat split; auto.
      * constructor; auto.
Qed.

Lemma find_sheet_first_titled meta t :
  first_titled t (listed_sheets meta) (find_sheet meta t).
Proof.
  unfold find_sheet, listed_sheets. destruct (Api.sheets meta) as [l |].
  - apply find_first_titled.
  - constructor.
Qed.

Section Resolving.
Context {W : Type}.
Variable c : SpreadsheetContext W.
Variables (spreadsheetId sheetTitle : string) (s : state W).

Lemma renameSheet_reports newName :
  reports_unknown_sheet
    (renameSheet spreadsheetId sheetTitle newName (Some c))
    c spreadsheetId sheetTitle
    "Cannot find the sheet with the specified name" s.
Proof.
  unfold reports_unknown_sheet, renameSheet. run.
  answer (spreadsheets_get W (sheets c) spreadsheetId (world s)); auto.
  destruct (find_sheet (data r) sheetTitle); simpl; auto.
  intros t.
  match goal with
  | |- context [spreadsheets_batchUpdate W ?a ?b ?d ?x] =>
      answer (spreadsheets_batchUpdate W a b d x); discriminate
  end.
Qed.

Lemma addRows_reports count startRow :
  reports_unknown_sheet
    (addRows spreadsheetId sheetTitle count startRow (Some c))
    c spreadsheetId sheetTitle "Sheet Not found" s.
Proof.
  unfold reports_unknown_sheet, addRows. run.
  answer (spreadsheets_get W (sheets c) spreadsheetId (world s)); auto.
  destruct (find_sheet (data r) sheetTitle); simpl; auto.
  intros t.
  match goal with
  | |- context [spreadsheets_batchUpdate W ?a ?b ?d ?x] =>
      answer (spreadsheets_batchUpdate W a b d x); discriminate
  end.
Qed.

Lemma addColumns_reports count startColumn :
  reports_unknown_sheet
    (addColumns spreadsheetId sheetTitle count startColumn (Some c))
    c spreadsheetId sheetTitle "Sheet not found" s.
Proof.
  unfold reports_unknown_sheet, addColumns. run.
  answer (spreadsheets_get W (sheets c) spreadsheetId (world s)); auto.
  destruct (find_sheet (data r) sheetTitle); simpl; auto.
  intros t.
  match goal with
  | |- context [spreadsheets_batchUpdate W ?a ?b ?d ?x] =>
      answer (spreadsheets_batchUpdate W a b d x); discriminate
  end.
Qed.

Lemma copySheet_reports dstSpreadsheet dstSheet :
  reports_unknown_sheet
    (copySheet spreadsheetId sheetTitle dstSpreadsheet dstSheet (Some c))
    c spreadsheetId sheetTitle "Source sheet not found" s.
Proof.
  unfold reports_unknown_sheet, copySheet. run.
  answer (spreadsheets_get W (sheets c) spreadsheetId (world s)); auto.
  destruct (find_sheet (data r) sheetTitle) as [sheetObj |]; simpl; auto.
  intros t.
  destruct (properties sheetObj); simpl; [| discriminate].
  match goal with
  | |- context [spreadsheets_sheets_copyTo W ?a ?b ?d ?x ?y] =>
      answer (spreadsheets_sheets_copyTo W a b d x y); [| discriminate]
  end.
  destruct (truthy_string dstSheet && _); simpl; [| discriminate].
  match goal with
  | |- context [spreadsheets_batchUpdate W ?a ?b ?d ?x] =>
      answer (spreadsheets_batchUpdate W a b d x); discriminate
  end.
Qed.
End Resolving.

(** Exact, case-sensitive matching: a sheet titled "Sheet1" is not found
    under "sheet1", and of two sheets titled "Sheet1" the first is taken. *)
Example find_sheet_is_case_sensitive :
  find_sheet Demo.book "sheet1" = None /\
  find_sheet Demo.book "Sheet1" = Some (Demo.tab "Sheet1" 7).
Proof. split; reflexivity. Qed.

(** C1. The lookup shared by renameSheet, addRows, addColumns and copySheet
    returns the first listed sheet whose title equals the requested one
    exactly.  When no sheet matches, each of the four operations returns
    its not-found string after the metadata fetch alone; when one matches,
    none of them returns a string, so the not-found result differs from
    every successful result. *)
Theorem resolve_sheet_by_title :
  (forall meta t, first_titled t (listed_sheets meta) (find_sheet meta t)) /\
  (forall W (c : SpreadsheetContext W) spreadsheetId sheetTitle s,
      (forall newName,
          reports_unknown_sheet
            (renameSheet spreadsheetId sheetTitle newName (Some c))
            c spreadsheetId sheetTitle
            "Cannot find the sheet with the specified name" s) /\
      (forall count startRow,
          reports_unknown_sheet
            (addRows spreadsheetId sheetTitle count startRow (Some c))
            c spreadsheetId sheetTitle "Sheet Not found" s) /\
      (forall count startColumn,
          reports_unknown_sheet
            (addColumns spreadsheetId sheetTitle count startColumn (Some c))
            c spreadsheetId sheetTitle "Sheet not found" s) /\
      (forall dstSpreadsheet dstSheet,
          reports_unknown_sheet
            (copySheet spreadsheetId sheetTitle dstSpreadsheet dstSheet (Some c))
            c spreadsheetId sheetTitle "Source sheet not found" s)).
Proof.
  split.
  - exact find_sheet_first_titled.
  - intros W c spreadsheetId sheetTitle s. repeat split; intros.
    + apply renameSheet_reports.
    + apply addRows_reports.
    + apply addColumns_reports.
    + apply copySheet_reports.
Qed.

(** *** shareSpreadsheet *)

Lemma outcomes_length recipients ss fs :
  outcomes recipients ss fs ->
  (List.length ss + List.length fs = List.length recipients)%nat.
Proof.
  induction 1; simpl; lia.
Qed.

Lemma share_each_outcomes {W} (c : SpreadsheetContext W) spreadsheetId
    recipients :
  forall ss fs s,
  exists ss' fs' s',
    share_each spreadsheetId (Some c) recipients ss fs s
    = (Return {| successes := ss ++ ss'; failures := fs ++ fs' |}, s') /\
    outcomes recipients ss' fs' /\
    sent s' = sent s ++ map (grant_call spreadsheetId)
                          (filter (fun rec => negb (invalid_entry rec))
                                  recipients) /\
    console s' = console s /\
    unhandled s' = unhandled s.
Proof.
  induction recipients as [| rec rest IH]; intros ss fs s.
  - exists [], [], s. simpl. unfold ret. rewrite !app_nil_r.
    repeat split; constructor.
  - simpl. destruct (invalid_entry rec) eqn:Hinv; simpl.
    + destruct (IH ss (fs ++ [{| failure_email_address := email_address rec;
                                 error := "Invalid Entry" |}]) s)
        as (ss' & fs' & s' & Hrun & Hout & Hsent & Hcon & Hun).
      exists ss', ({| failure_email_address := email_address rec;
                      error := "Invalid Entry" |} :: fs'), s'.
      rewrite Hrun, <- app_assoc. repeat split; auto.
      now constructor.
    + run.
      match goal with
      | |- context [permissions_create W ?a ?b ?d ?x ?y ?z] =>
          destruct (permissions_create W a b d x y z) as [[perm | e] w] eqn:Hp
      end; simpl.
      * match goal with
        | |- context [share_each _ _ rest ?a ?b ?st] =>
            destruct (IH a b st)
              as (ss' & fs' & s' & Hrun & Hout & Hsent & Hcon & Hun)
        end.
        exists ({| success_email_address := email_address rec;
                   success_role := recipient_role rec;
                   permissionId := Api.id (data perm) |} :: ss'), fs', s'.
        rewrite Hrun, <- app_assoc. simpl in *.
        rewrite Hsent, <- app_assoc. repeat split; auto.
        now constructor.
      * match goal with
        | |- context [share_each _ _ rest ?a ?b ?st] =>
            destruct (IH a b st)
              as (ss' & fs' & s' & Hrun & Hout & Hsent & Hcon & Hun)
        end.
        exists ss', ({| failure_email_address := email_address rec;
                        error := message e |} :: fs'), s'.
        rewrite Hrun, <- app_assoc. simpl in *.
        rewrite Hsent, <- app_assoc. repeat split; auto.
        now constructor.
Qed.

(** The recipients of the specification's example: one valid entry, one
    without address, one with an unknown role. *)
Example shareSpreadsheet_one_of_three :
  fst (shareSpreadsheet "S1"
         [{| email_address := "ann@example.com"; recipient_role := "writer" |};
          {| email_address := ""; recipient_role := "reader" |};
          {| email_address := "bob@example.com"; recipient_role := "bogusrole" |}]
         (Some Demo.accepting) Demo.fresh)
  = Return
      {| successes := [{| success_email_address := "ann@example.com";
                          success_role := "writer";
                          permissionId := Some "perm-1" |}];
         failures := [{| failure_email_address := "";
                         error := "Invalid Entry" |};
                      {| failure_email_address := "bob@example.com";
                         error := "Invalid Entry" |}] |}.
Proof. reflexivity. Qed.

(** A grant the collaborator refuses does not stop the loop: the entry
    after it is still granted. *)
Example shareSpreadsheet_continues_after_refusal :
  shareSpreadsheet "S1"
    [{| email_address := "nobody@example.com"; recipient_role := "reader" |};
     {| email_address := "ann@example.com"; recipient_role := "commenter" |}]
    (Some Demo.accepting) Demo.fresh
  = (Return
       {| successes := [{| success_email_address := "ann@example.com";
                           success_role := "commenter";
                           permissionId := Some "perm-1" |}];
          failures := [{| failure_email_address := "nobody@example.com";
                          error := "Quota exceeded" |}] |},
     {| world := 2%nat;
        sent := [PermissionsCreate "S1"
                   {| type := "user"; role := "reader";
                      emailAddress := "nobody@example.com" |} true "id";
                 PermissionsCreate "S1"
                   {| type := "user"; role := "commenter";
                      emailAddress := "ann@example.com" |} true "id"];
        console := [];
        unhandled := [] |}).
Proof. reflexivity. Qed.

(** C5. For every recipient list and every collaborator, shareSpreadsheet
    returns (it never throws).  The two lists it returns split the
    recipients in order: an entry without address or with a role outside
    reader, commenter, writer is a failure 'Invalid Entry'; every other
    entry is a success or a failure of its own.  The grants attempted are
    exactly those of the valid entries, one each, in order, so an invalid
    entry is never attempted and a refused grant does not stop the later
    ones.  The two lists together are as long as the recipient list. *)
Theorem shareSpreadsheet_partitions_recipients :
  forall W (c : SpreadsheetContext W) spreadsheetId recipients s,
  exists shared s',
    shareSpreadsheet spreadsheetId recipients (Some c) s = (Return shared, s') /\
    outcomes recipients (successes shared) (failures shared) /\
    sent s' = sent s ++ map (grant_call spreadsheetId)
                          (filter (fun rec => negb (invalid_entry rec))
                                  recipients) /\
    (List.length (successes shared) + List.length (failures shared)
     = List.length recipients)%nat.
Proof.
  intros W c spreadsheetId recipients s. unfold shareSpreadsheet.
  destruct (share_each_outcomes c spreadsheetId recipients [] [] s)
    as (ss & fs & s' & Hrun & Hout & Hsent & _ & _).
  exists {| successes := ss; failures := fs |}, s'. simpl in *.
  repeat split; auto.
  now apply outcomes_length.
Qed.

(** *** addRows and addColumns *)


(** The examples of the specification: three rows at 0 cover [0,3) and
    inherit nothing; three rows at 5 cover [5,8) and inherit from the row
    before. *)
Example addRows_at_zero_and_at_five :
  sent (snd (addRows "S1" "Sheet1" 3 (Some 0) (Some Demo.accepting) Demo.fresh))
  = [SpreadsheetsGet "S1";
     SpreadsheetsBatchUpdate "S1"
       [insertDimension {| range_sheetId := Some 7; dimension := ROWS;
                           startIndex := 0; endIndex := 3 |} false]] /\
  sent (snd (addRows "S1" "Sheet1" 3 (Some 5) (Some Demo.accepting) Demo.fresh))
  = [SpreadsheetsGet "S1";
     SpreadsheetsBatchUpdate "S1"
       [insertDimension {| range_sheetId := Some 7; dimension := ROWS;
                           startIndex := 5; endIndex := 8 |} true]].
Proof. split; reflexivity. Qed.



(** *** sheetData and updateCells *)

(** C10. An empty-string range and an absent range are not told apart:
    sheetData and updateCells behave identically on both, and the request
    they send addresses the bare sheet name. *)
Theorem empty_range_is_whole_sheet :
  forall W (c : SpreadsheetContext W) (context : option (SpreadsheetContext W))
         spreadsheetId sheet (cells : grid) s,
    fullRange sheet (JString "") = sheet /\
    fullRange sheet JUndefined = sheet /\
    sheetData spreadsheetId sheet (JString "") context s
    = sheetData spreadsheetId sheet JUndefined context s /\
    updateCells spreadsheetId sheet (JString "") cells context s
    = updateCells spreadsheetId sheet JUndefined cells context s /\
    sent (snd (sheetData spreadsheetId sheet (JString "") (Some c) s))
    = sent s ++ [ValuesGet spreadsheetId sheet] /\
    sent (snd (updateCells spreadsheetId sheet (JString "") cells (Some c) s))
    = sent s ++ [ValuesUpdate spreadsheetId sheet "USER_ENTERED" cells].
Proof.
  intros W c context spreadsheetId sheet cells s.
  repeat split; try reflexivity; unfold sheetData, updateCells; run.
  - match goal with
    | |- context [spreadsheets_values_get W ?a ?b ?d ?x] =>
        answer (spreadsheets_values_get W a b d x)
    end; reflexivity.
  - match goal with
    | |- context [spreadsheets_values_update W ?a ?b ?d ?x ?y ?z] =>
        answer (spreadsheets_values_update W a b d x y z)
    end; reflexivity.
Qed.

(** *** batchUpdate *)

(** For an object whose keys are ranges, every entry of the request
    addresses its own range within the sheet. *)
Lemma batchUpdate_of_object {W} (c : SpreadsheetContext W) spreadsheetId sheet
    props s :
  sent (snd (batchUpdate spreadsheetId sheet (JObject props) (Some c) s))
  = sent s ++ [ValuesBatchUpdate spreadsheetId "USER_ENTERED"
                 (map (data_entry sheet) props)].
Proof.
  unfold batchUpdate. run.
  match goal with
  | |- context [spreadsheets_values_batchUpdate W ?a ?b ?d ?x] =>
      answer (spreadsheets_values_batchUpdate W a b d x)
  end; reflexivity.
Qed.

(** For an array, which is what the declared parameter type and the
    registered schema admit, the entries address the positions of the rows:
    "sheet!0", "sheet!1", ... *)
Lemma batchUpdate_of_array {W} (c : SpreadsheetContext W) spreadsheetId sheet
    rows s :
  exists entries,
    sent (snd (batchUpdate spreadsheetId sheet (JArray rows) (Some c) s))
    = sent s ++ [ValuesBatchUpdate spreadsheetId "USER_ENTERED" entries] /\
    map entry_range entries
    = map (fun i => sheet ^^ "!" ^^ index_key i) (seq 0 (List.length rows)) /\
    map entry_values entries = rows.
Proof.
  exists (map (data_entry sheet) (indexed 0 rows)). split; [| split].
  - unfold batchUpdate. run.
    match goal with
    | |- context [spreadsheets_values_batchUpdate W ?a ?b ?d ?x] =>
        answer (spreadsheets_values_batchUpdate W a b d x)
    end; reflexivity.
  - rewrite map_map. unfold data_entry. simpl.
    generalize 0%nat. induction rows as [| x rows IH]; intros i; simpl; auto.
    now rewrite IH.
  - rewrite map_map. unfold data_entry. simpl.
    generalize 0%nat. induction rows as [| x rows IH]; intros i; simpl; auto.
    now rewrite IH.
Qed.

(** C7, at ranges [["A1:B1","x","y"],["C3","z"]]: one batch request is
    sent, user-entered, with one entry per row, but the entries address
    "Sheet1!0" and "Sheet1!1", the positions of the rows, and not the
    ranges the rows name; each row, range included, is sent as values. *)
Theorem batchUpdate_addresses_row_numbers :
  sent (snd (batchUpdate "S1" "Sheet1"
               (Server.array_of_rows [["A1:B1"; "x"; "y"]; ["C3"; "z"]])
               (Some Demo.accepting) Demo.fresh))
  = [ValuesBatchUpdate "S1" "USER_ENTERED"
       [{| entry_range := "Sheet1!0";
           entry_values := JArray [JString "A1:B1"; JString "x"; JString "y"] |};
        {| entry_range := "Sheet1!1";
           entry_values := JArray [JString "C3"; JString "z"] |}]].
Proof. reflexivity. Qed.

(** *** createSpreadSheet *)

(** Once the collaborator has returned an id, neither the grant nor the
    move can make [createSpreadSheet] fail: the id and the link are
    returned whatever the Drive client answers.  The grant is always the
    second call, and its grantee is the fixed text of [creator_grant]. *)
Lemma createSpreadSheet_side_effects_are_not_fatal {W}
    (c : SpreadsheetContext W) title s r w d i :
  spreadsheets_create W (sheets c) title create_fields (world s)
  = (Fulfilled r, w) ->
  data r = Some d ->
  spreadsheetId d = Some i ->
  truthy_string i = true ->
  fst (createSpreadSheet title (Some c) s)
  = Return {| id := i; link := spreadsheetUrl d |} /\
  exists rest,
    sent (snd (createSpreadSheet title (Some c) s))
    = sent s ++ SpreadsheetsCreate title create_fields
             :: PermissionsCreate i creator_grant true "id" :: rest.
Proof.
  intros Hcreate Hdata Hid Htruthy.
  unfold createSpreadSheet. run. rewrite Hcreate. simpl.
  rewrite Hdata, Hid. simpl. rewrite Htruthy. simpl.
  match goal with
  | |- context [permissions_create W ?a ?b ?d ?x ?y ?z] =>
      answer (permissions_create W a b d x y z)
  end;
    (destruct (truthy (folderId c)); simpl;
     [ match goal with
       | |- context [files_get W ?a ?b ?d ?x] => answer (files_get W a b d x)
       end;
       [ match goal with
         | |- context [files_update W ?a ?b ?d ?x ?y ?z] =>
             answer (files_update W a b d x y z)
         end |]
     | ]);
    (split; [reflexivity |]); rewrite <- ?app_assoc; simpl; eauto.
Qed.

(** C8, at title "Budget" with a folder configured and a Drive client that
    refuses every call: the spreadsheet's id and link are returned and both
    failures are logged, so the side effects are not fatal; but the grantee
    of the grant is the text "process.env.EMAIL_ID", which no
    configuration can change. *)
Theorem createSpreadSheet_grants_fixed_text :
  createSpreadSheet "Budget" (Some Demo.create_only) Demo.fresh
  = (Return {| id := "S1";
               link := Some "https://docs.google.com/spreadsheets/d/S1" |},
     {| world := 3%nat;
        sent := [SpreadsheetsCreate "Budget"
                   "spreadsheetId,properties,sheets,spreadsheetUrl";
                 PermissionsCreate "S1"
                   {| type := "user"; role := "writer";
                      emailAddress := "process.env.EMAIL_ID" |} true "id";
                 FilesGet "S1" "parents"];
        console := [console_log [Text "Error granting permissions:";
                                 Caught Demo.quota];
                    console_error [Text "Error moving to folder:";
                                   Caught Demo.quota]];
        unhandled := [] |}).
Proof. reflexivity. Qed.

(** With a Drive client that accepts, the spreadsheet is moved by adding
    the configured folder and removing the parents it had. *)
Example createSpreadSheet_moves_to_folder :
  sent (snd (createSpreadSheet "Budget" (Some Demo.accepting) Demo.fresh))
  = [SpreadsheetsCreate "Budget" create_fields;
     PermissionsCreate "S1" creator_grant true "id";
     FilesGet "S1" "parents";
     FilesUpdate "S1" "F1" "root" "id, parents"].
Proof. reflexivity. Qed.

(* ================================================================== *)
(** ** Properties of the tool callbacks *)
(* ================================================================== *)


Lemma detach_returns {W A} (m : Js.M (state W) A) s :
  (forall code, fst (m s) <> Exit code) -> fst (detach m s) = Return tt.
Proof.
  unfold detach. destruct (m s) as [[a | e | code] s']; simpl; auto.
  intros H. now destruct (H code).
Qed.

Section NeverExits.
Context {W : Type}.
Variable context : option (SpreadsheetContext W).
Variable s : state W.

Lemma updateCells_never_exits spreadsheetId sheet range cells code :
  fst (updateCells spreadsheetId sheet range cells context s) <> Exit code.
Proof. unfold updateCells. run. destruct context; crack; discriminate. Qed.

Lemma batchUpdate_never_exits spreadsheetId sheet ranges code :
  fst (batchUpdate spreadsheetId sheet ranges context s) <> Exit code.
Proof.
  unfold batchUpdate. run.
  destruct ranges; simpl; try discriminate; destruct context; crack;
    discriminate.
Qed.

Lemma addRows_never_exits spreadsheetId sheet count startRow code :
  fst (addRows spreadsheetId sheet count startRow context s) <> Exit code.
Proof. unfold addRows. run. destruct context; crack; discriminate. Qed.

Lemma addColumns_never_exits spreadsheetId sheet count startColumn code :
  fst (addColumns spreadsheetId sheet count startColumn context s) <> Exit code.
Proof. unfold addColumns. run. destruct context; crack; discriminate. Qed.

Lemma copySheet_never_exits src srcSheet dst dstSheet code :
  fst (copySheet src srcSheet dst dstSheet context s) <> Exit code.
Proof. unfold copySheet. run. destruct context; crack; discriminate. Qed.

End NeverExits.

(** The callback of a tool whose operation is not awaited answers as soon
    as the operation has been started. *)
Lemma detached_answer {W A} (m : option (SpreadsheetContext W) -> Js.M (state W) A)
    (reply : Envelope) (p : process W) :
  (forall context s code, fst (m context s) <> Exit code) ->
  fst ((context <- gets Server.context;;
        lift (detach (m context));;;
        ret reply) p) = Return reply.
Proof.
  intros H. unfold bind, gets, lift, ret. simpl.
  pose proof (detach_returns (m (Server.context p)) (run p)
                (H (Server.context p) (run p))) as Hd.
  destruct (detach (m (Server.context p)) (run p)) as [r s']. simpl in *.
  now subst r.
Qed.


(** What the operations return where the callbacks below answer. *)
Example operations_behind_the_answers :
  fst (addRows "S1" "Missing" 3 (Some 0) (Some Demo.accepting) Demo.fresh)
  = Return (Str "Sheet Not found") /\
  fst (copySheet "S1" "Missing" "S2" "Copy" (Some Demo.accepting) Demo.fresh)
  = Return (Str "Source sheet not found") /\
  fst (updateCells "S1" "Sheet1" (JString "A1:B2") [["1"; "2"]; ["3"; "4"]]
         (Some Demo.accepting) Demo.fresh)
  = Return {| data := {| updatedCells := Some 4 |} |} /\
  fst (addRows_tool "S1" "Missing" 3 0 (Demo.ready Demo.accepting))
  = Return (text_result "The rows were added successfully!") /\
  fst (copySheet_tool "S1" "Missing" "S2" "Copy" (Demo.ready Demo.accepting))
  = Return (text_result
              "Sheet was successfully copied to destination sheet. [object Promise]").
Proof. repeat split; reflexivity. Qed.

(** C4. The callbacks of updateCells, batchUpdate, addRows, addColumns and
    copySheet do not await the operation and do not wrap what it returns:
    for every request, context and collaborator each of them answers with
    the same text item, fixed before the operation has produced anything
    (where the text mentions the result, it is the rendering of the pending
    promise). *)
Theorem detached_tools_answer_blindly :
  forall W (p : process W),
    (forall spreadsheetId sheet range cells,
        fst (updateCells_tool spreadsheetId sheet range cells p)
        = Return (text_result "Data was updated successfully.[object Promise]")) /\
    (forall spreadsheetId sheet ranges,
        fst (batchUpdate_tool spreadsheetId sheet ranges p)
        = Return (text_result "The values were updated: [object Promise]")) /\
    (forall spreadsheetId sheet count startRow,
        fst (addRows_tool spreadsheetId sheet count startRow p)
        = Return (text_result "The rows were added successfully!")) /\
    (forall spreadsheetId sheet count startColumn,
        fst (addColumns_tool spreadsheetId sheet count startColumn p)
        = Return (text_result "The columns were added successfully!")) /\
    (forall srcSpreadsheet srcSheet dstSpreadsheet dstSheet,
        fst (copySheet_tool srcSpreadsheet srcSheet dstSpreadsheet dstSheet p)
        = Return (text_result
                    "Sheet was successfully copied to destination sheet. [object Promise]")).
Proof.
  intros W p. repeat split.
  - intros i sh r cs.
    apply (detached_answer (updateCells i sh (JString r) cs)).
    intros. apply updateCells_never_exits.
  - intros i sh rs.
    apply (detached_answer (batchUpdate i sh (array_of_rows rs))).
    intros. apply batchUpdate_never_exits.
  - intros i sh n k.
    apply (detached_answer (addRows i sh n (Some k))).
    intros. apply addRows_never_exits.
  - intros i sh n k.
    apply (detached_answer (addColumns i sh n (Some k))).
    intros. apply addColumns_never_exits.
  - intros i sh j dsh.
    apply (detached_answer (copySheet i sh j dsh)).
    intros. apply copySheet_never_exits.
Qed.

(** C2, with a collaborator that rejects every call.  The callback of
    create catches the error and answers with it as text.  The callback of
    listSheets has no handler: the error leaves the callback.  The callback
    of addRows answers that the rows were added while the rejection of the
    operation it started is handled by nothing. *)
Theorem errors_leave_the_callbacks :
  fst (create_tool "Budget" (Demo.ready Demo.rejecting))
  = Return (text_result "Failed to create spreadsheet: Error: Quota exceeded") /\
  fst (listSheets_tool "S1" (Demo.ready Demo.rejecting)) = Throw Demo.quota /\
  fst (addRows_tool "S1" "Sheet1" 3 0 (Demo.ready Demo.rejecting))
  = Return (text_result "The rows were added successfully!") /\
  unhandled (run (snd (addRows_tool "S1" "Sheet1" 3 0
                         (Demo.ready Demo.rejecting))))
  = [Demo.quota].
Proof. repeat split; reflexivity. Qed.

(* ================================================================== *)
(** ** Properties of the bootstrap *)
(* ================================================================== *)

Section Settling.
Context {W : Type}.
#[local] Abbreviation M := (Js.M (process W)).

Lemma settles_ret {A} (assigns : A -> bool) (a : A) :
  assigns a = false -> settles assigns (ret a : M A).
Proof. intros H p Hp. simpl. now rewrite H. Qed.

Lemma settles_throw {A} (assigns : A -> bool) e :
  settles assigns (throw e : M A).
Proof. intros p Hp. exact Hp. Qed.

Lemma settles_set {A} (assigns : A -> bool) c (a : A) :
  assigns a = true -> settles assigns (set_context c;;; ret a : M A).
Proof. intros H p Hp. simpl. rewrite H. discriminate. Qed.

Lemma settles_bind {A B} (assigns : B -> bool) (m : M A) (k : A -> M B) :
  settles (fun _ => false) m ->
  (forall a, settles assigns (k a)) ->
  settles assigns (bind m k).
Proof.
  intros Hm Hk p Hp. unfold bind. specialize (Hm p Hp).
  destruct (m p) as [[a | e | code] p']; auto.
  now apply Hk.
Qed.

Lemma settles_unless_returned {A B} (done : A -> bool) (assigns : B -> bool)
    (m : M A) (b : B) (k : A -> M B) :
  settles done m ->
  assigns b = true ->
  (forall a, settles assigns (k a)) ->
  settles assigns (a <- m;; if done a then ret b else k a).
Proof.
  intros Hm Hb Hk p Hp. unfold bind. specialize (Hm p Hp).
  destruct (m p) as [[a | e | code] p']; auto.
  destruct (done a); simpl.
  - now rewrite Hb.
  - now apply Hk.
Qed.

Lemma settles_try_catch {A} (assigns : A -> bool) (body : M A) handler :
  settles assigns body ->
  (forall e, settles assigns (handler e)) ->
  settles assigns (try_catch body handler).
Proof.
  intros Hb Hh p Hp. unfold try_catch. specialize (Hb p Hp).
  destruct (body p) as [[a | e | code] p']; auto.
  now apply Hh.
Qed.

Lemma settles_print {A} (assigns : A -> bool) line (k : M A) :
  settles assigns k -> settles assigns (lift (print line);;; k).
Proof. intros Hk p Hp. unfold bind. simpl. now apply Hk. Qed.

Lemma settles_suspend {A} (assigns : A -> bool) what (k : M A) :
  settles assigns k -> settles assigns (suspend what;;; k).
Proof. intros Hk p Hp. unfold bind. simpl. now apply Hk. Qed.

Lemma settles_write {A} (assigns : A -> bool) path text (k : M A) :
  settles assigns k -> settles assigns (writeFileSync path text;;; k).
Proof. intros Hk p Hp. unfold bind. simpl. now apply Hk. Qed.

Lemma settles_await {A} (r : settled A) : settles (fun _ => false) (await r : M A).
Proof. intros p Hp. destruct r; exact Hp. Qed.

Lemma settles_get_property v k :
  settles (fun _ => false) (get_property v k : M any).
Proof. intros p Hp. destruct v; exact Hp. Qed.

Lemma settles_existsSync path :
  settles (fun _ => false) (existsSync path : M bool).
Proof. intros p Hp. exact Hp. Qed.

Lemma settles_readFileSync path :
  settles (fun _ => false) (readFileSync path : M string).
Proof. intros p Hp. unfold readFileSync. destruct (disk p path); exact Hp. Qed.

Lemma settles_invoke {A} c (m : method W A) :
  settles (fun _ => false) (lift (invoke c m)).
Proof.
  intros p Hp. unfold lift, invoke. destruct (m (world (run p))) as [[r | e] w];
    exact Hp.
Qed.
End Settling.

(** Decomposes a goal [settles _ m] along the structure of [m]. *)
Ltac settle :=
  repeat (intros;
          first [ apply settles_throw
                | apply settles_ret; reflexivity
                | apply settles_set; reflexivity
                | apply settles_print
                | apply settles_suspend
                | apply settles_write
                | apply settles_try_catch
                | apply settles_await
                | apply settles_get_property
                | apply settles_existsSync
                | apply settles_readFileSync
                | apply settles_invoke
                | apply settles_unless_returned; [| reflexivity |]
                | apply settles_bind
                | match goal with
                  | |- settles _ (if ?b then _ else _) => destruct b
                  | |- settles _ (match ?x with _ => _ end) => destruct x
                  end ]).

Section Paths.
Context {W : Type}.
Variable env : Env W.

Lemma service_credentials_settles :
  settles (fun returned => returned) (service_credentials env).
Proof. unfold service_credentials. settle. Qed.

Lemma saved_token_settles client : settles fst (saved_token env client).
Proof. unfold saved_token. settle. Qed.

Lemma oauth_credentials_settles :
  settles (fun _ => true) (oauth_credentials env).
Proof.
  unfold oauth_credentials. settle.
Qed.

(** [initContext] returns with [context] assigned or exits with status 1
    and [context] unassigned; it never throws. *)
Lemma initContext_exits_iff_unassigned p :
  context p = None ->
  match initContext env p with
  | (Return _, p') => context p' <> None
  | (Throw _, _) => False
  | (Exit code, p') => code = 1 /\ context p' = None
  end.
Proof.
  intros Hp. unfold initContext, try_catch.
  assert (Hbody : settles (fun _ : unit => true)
            (returned <- service_credentials env;;
             if returned then ret tt
             else present <- existsSync CREDENTIALS_PATH;;
                  if present then oauth_credentials env
                  else throw (new_Error
                                "No valid authentication method available"))).
  { apply (settles_unless_returned (fun returned : bool => returned)).
    - apply service_credentials_settles.
    - reflexivity.
    - intros _. settle. }
  specialize (Hbody p Hp).
  match goal with
  | |- context [bind ?m ?k p] => destruct (bind m k p) as [[[] | e | code] p']
  end; simpl; auto; contradiction.
Qed.

End Paths.


(** The three ways the bootstrap can go: the service credential is
    accepted; it is refused and the saved OAuth token takes over; nothing
    is configured and the process exits with status 1. *)
Example initContext_three_ways :
  (let (r, p) := initContext (Demo.surroundings (Some "a2V5") true)
                   (Demo.unassigned Demo.oauth_disk) in
   r = Return tt /\
   console (run p) = [] /\
   waits p = ["authorize"]) /\
  (let (r, p) := initContext (Demo.surroundings (Some "a2V5") false)
                   (Demo.unassigned Demo.oauth_disk) in
   r = Return tt /\
   console (run p)
   = [console_error [Text "Error with credentials from environment:";
                     Caught (new_Error "invalid_grant")];
      console_log [Text "Using OAuth credentials from file"];
      console_log [Text "Using saved token"];
      console_log [Text "OAuth authentication successful with saved token"]] /\
   waits p = ["authorize"; "drive.files.list"]) /\
  (let (r, p) := initContext (Demo.surroundings None true)
                   (Demo.unassigned Demo.empty_disk) in
   r = Exit 1 /\
   console (run p)
   = [console_error
        [Text "Failed to initialize context:";
         Caught (new_Error "No valid authentication method available")]] /\
   waits p = []).
Proof. repeat split; reflexivity. Qed.



(* ================================================================== *)
(** ** Properties of the server's life *)
(* ================================================================== *)

Section Lifecycle.
Context {W : Type}.
#[local] Abbreviation M := (Js.M (process W)).

Lemma lift_keeps_context {A} (m : Js.M (state W) A) p :
  context (snd (lift m p)) = context p.
Proof. unfold lift. now destruct (m (run p)). Qed.

Lemma bind_keeps_context {A B} (m : M A) (k : A -> M B) :
  (forall p, context (snd (m p)) = context p) ->
  (forall a p, context (snd (k a p)) = context p) ->
  forall p, context (snd (bind m k p)) = context p.
Proof.
  intros Hm Hk p. unfold bind. specialize (Hm p).
  destruct (m p) as [[a | e | code] p']; simpl in *; auto.
  now rewrite Hk.
Qed.

Lemma try_catch_keeps_context {A} (body : M A) handler :
  (forall p, context (snd (body p)) = context p) ->
  (forall e p, context (snd (handler e p)) = context p) ->
  forall p, context (snd (try_catch body handler p)) = context p.
Proof.
  intros Hb Hh p. unfold try_catch. specialize (Hb p).
  destruct (body p) as [[a | e | code] p']; simpl in *; auto.
  now rewrite Hh.
Qed.

(** No tool callback assigns [context]. *)
Lemma tool_callback_keeps_context c (p : process W) :
  context (snd (tool_callback c p)) = context p.
Proof.
  destruct c; simpl;
    unfold create_tool, listSheets_tool, renameSheet_tool, createSheet_tool,
      spreadsheetInfo_tool, listSpreadsheets_tool, shareSpreadsheet_tool,
      sheetData_tool, updateCells_tool, batchUpdate_tool, addRows_tool,
      addColumns_tool, copySheet_tool;
    repeat (first [ apply try_catch_keeps_context
                  | apply bind_keeps_context
                  | apply lift_keeps_context
                  | reflexivity
                  | progress intros
                  | match goal with
                    | |- context [match ?x with _ => _ end] => destruct x
                    end ]).
Qed.

Lemma serve_keeps_context c (s : server W) :
  context (proc (serve c s)) = context (proc s) /\
  at_stage (serve c s) = at_stage s.
Proof.
  unfold serve. pose proof (tool_callback_keeps_context c (proc s)) as H.
  destruct (tool_callback c (proc s)) as [r p']. simpl in *. auto.
Qed.

(** Once [initContext] has returned, no event changes [context]: it is
    assigned once. *)
Lemma context_is_assigned_once (env : Env W) es :
  forall s s',
    at_stage s = Ready ->
    handle_all env es s = Some s' ->
    at_stage s' = Ready /\ context (proc s') = context (proc s).
Proof.
  induction es as [| e es IH]; intros s s' Hs Hrun; simpl in Hrun.
  - inversion Hrun; subst. auto.
  - unfold handle in Hrun. rewrite Hs in Hrun.
    destruct e as [| | c]; try discriminate.
    destruct (serve_keeps_context c s) as [Hc Hst].
    apply IH in Hrun; [| congruence].
    destruct Hrun as [Hr Hk]. split; congruence.
Qed.

(** At every stage of a run, [context] is unassigned until [initContext]
    has returned and assigned from then on. *)
Lemma stage_tells_context (env : Env W) es :
  forall s s',
    match at_stage s with
    | Starting | Listening => context (proc s) = None
    | Ready => context (proc s) <> None
    | Stopped _ => True
    end ->
    handle_all env es s = Some s' ->
    match at_stage s' with
    | Starting | Listening => context (proc s') = None
    | Ready => context (proc s') <> None
    | Stopped _ => True
    end.
Proof.
  induction es as [| e es IH]; intros s s' Hs Hrun; simpl in Hrun.
  - inversion Hrun; subst. auto.
  - destruct (handle env e s) as [s1 |] eqn:He; [| discriminate].
    apply (IH s1 s'); auto. clear IH Hrun.
    unfold handle in He.
    destruct e as [| | c]; destruct (at_stage s) eqn:Hst; try discriminate.
    + destruct (connect env); inversion He; subst; simpl; auto.
    + pose proof (initContext_exits_iff_unassigned env (proc s) Hs) as Hi.
      destruct (initContext env (proc s)) as [[[] | e | code] p'];
        inversion He; subst; simpl; auto.
    + destruct (bootstrap_suspends env (proc s)); inversion He; subst.
      destruct (serve_keeps_context c s) as [Hc Hk]. rewrite Hk, Hst. congruence.
    + inversion He; subst.
      destruct (serve_keeps_context c s) as [Hc Hk]. rewrite Hk, Hst. congruence.
Qed.
End Lifecycle.

(** C9, with a service credential whose handshake is awaited: the
    transport is connected before initContext runs, so a listSheets request
    that arrives during the handshake is handed to its callback while
    context is still unassigned, and the callback fails on reading it; the
    same request after initContext has returned is served. *)
Theorem request_served_before_context_exists :
  option_map (fun s => (at_stage s, served s))
    (handle_all (Demo.surroundings (Some "a2V5") true)
       [Connected;
        Incoming (tool_listSheets "S1");
        Initialised;
        Incoming (tool_listSheets "S1")]
       (boot O Demo.empty_disk))
  = Some (Ready,
          [{| request := tool_listSheets "S1";
              context_defined := false;
              outcome := Throw (undefined_property "sheets") |};
           {| request := tool_listSheets "S1";
              context_defined := true;
              outcome := Return (text_result
                "List of all the sheets present: Data,Sheet1,Sheet1") |}]).
Proof. reflexivity. Qed.

(* ================================================================== *)
(** ** Further properties of sheets.ts *)
(* ================================================================== *)

(** X1. createSpreadSheet fails exactly when the collaborator rejects the
    creation or answers without a non-empty id: the error is logged and
    thrown, and nothing is granted or moved.  Otherwise it returns the id
    and the link of the answer. *)
Theorem createSpreadSheet_fails_without_id :
  forall W (c : SpreadsheetContext W) title s,
    match spreadsheets_create W (sheets c) title create_fields (world s) with
    | (Rejected e, w) =>
        createSpreadSheet title (Some c) s
        = (Throw e,
           {| world := w;
              sent := sent s ++ [SpreadsheetsCreate title create_fields];
              console := console s
                         ++ [console_error [Text "Error in createSpreadSheet:";
                                            Caught e]];
              unhandled := unhandled s |})
    | (Fulfilled r, w) =>
        match created_of r with
        | None =>
            createSpreadSheet title (Some c) s
            = (Throw (new_Error
                        "Failed to create spreadsheet: No spreadsheet ID returned"),
               {| world := w;
                  sent := sent s ++ [SpreadsheetsCreate title create_fields];
                  console :=
                    console s
                    ++ [console_error
                          [Text "Error in createSpreadSheet:";
                           Caught (new_Error
                                     "Failed to create spreadsheet: No spreadsheet ID returned")]];
                  unhandled := unhandled s |})
        | Some created => fst (createSpreadSheet title (Some c) s) = Return created
        end
    end.
Proof.
  intros W c title s. unfold createSpreadSheet, created_of. run.
  answer (spreadsheets_create W (sheets c) title create_fields (world s));
    [| reflexivity].
  destruct (data r) as [d |]; simpl; [| reflexivity].
  destruct (spreadsheetId d) as [i |]; simpl; [| reflexivity].
  destruct (truthy_string i); simpl; [| reflexivity].
  crack; reflexivity.
Qed.

Lemma created_of_some r created :
  created_of r = Some created ->
  exists d, data r = Some d /\ spreadsheetId d = Some (id created) /\
            truthy_string (id created) = true /\
            link created = spreadsheetUrl d.
Proof.
  unfold created_of. destruct (data r) as [d |]; [| discriminate].
  destruct (spreadsheetId d) as [i |] eqn:Hi; [| discriminate].
  destruct (truthy_string i) eqn:Ht; [| discriminate].
  intros H. inversion H; subst; simpl. eauto.
Qed.

(** X2. With a destination folder configured, a created spreadsheet is
    moved by one files.update that adds the folder and removes the
    comma-joined parents that files.get reported, whether the grant before
    succeeded or not; the calls are create, grant, files.get, files.update,
    in this order, and the id and link are returned. *)
Theorem createSpreadSheet_move_replaces_parents :
  forall W (c : SpreadsheetContext W) title s r w created folder pr w1 file w2,
    spreadsheets_create W (sheets c) title create_fields (world s)
    = (Fulfilled r, w) ->
    created_of r = Some created ->
    folderId c = Some folder ->
    truthy_string folder = true ->
    permissions_create W (drive c) (id created) creator_grant true "id" w
    = (pr, w1) ->
    files_get W (drive c) (id created) "parents" w1 = (Fulfilled file, w2) ->
    fst (createSpreadSheet title (Some c) s) = Return created /\
    sent (snd (createSpreadSheet title (Some c) s))
    = sent s ++ [SpreadsheetsCreate title create_fields;
                 PermissionsCreate (id created) creator_grant true "id";
                 FilesGet (id created) "parents";
                 FilesUpdate (id created) folder (previous_parents (data file))
                   "id, parents"].
Proof.
  intros W c title s r w created folder pr w1 file w2
         Hcreate Hcreated Hfolder Htruthy Hgrant Hget.
  destruct (created_of_some r created Hcreated) as (d & Hd & Hi & Ht & Hl).
  destruct created as [i l]. simpl in *. subst l.
  unfold createSpreadSheet. run. rewrite Hcreate. simpl.
  rewrite Hd, Hi. simpl. rewrite Ht. simpl. rewrite Hgrant.
  destruct pr as [perm | e]; simpl; rewrite Hfolder; simpl; rewrite Htruthy;
    simpl; rewrite Hget; simpl;
    match goal with
    | |- context [files_update W ?a ?b ?d ?x ?y ?z] =>
        answer (files_update W a b d x y z)
    end; rewrite <- !app_assoc; auto.
Qed.

Lemma createSpreadSheet_move_replaces_parents_witness :
  fst (createSpreadSheet "Budget" (Some Demo.accepting) Demo.fresh)
  = Return {| id := "S1";
              link := Some "https://docs.google.com/spreadsheets/d/S1" |} /\
  sent (snd (createSpreadSheet "Budget" (Some Demo.accepting) Demo.fresh))
  = sent Demo.fresh
    ++ [SpreadsheetsCreate "Budget" create_fields;
        PermissionsCreate "S1" creator_grant true "id";
        FilesGet "S1" "parents";
        FilesUpdate "S1" "F1"
          (previous_parents {| file_id := Some "S1"; file_name := None;
                               parents := Some ["root"] |})
          "id, parents"].
Proof.
  apply (createSpreadSheet_move_replaces_parents nat Demo.accepting "Budget"
           Demo.fresh {| data := Some Demo.book |} 1%nat
           {| id := "S1";
              link := Some "https://docs.google.com/spreadsheets/d/S1" |}
           "F1" (Fulfilled {| data := {| Api.id := Some "perm-1" |} |}) 2%nat
           {| data := {| file_id := Some "S1"; file_name := None;
                         parents := Some ["root"] |} |} 3%nat);
    reflexivity.
Defined.

(** X3. Without a destination folder (none, or the empty string) a created
    spreadsheet is never moved: the only calls are the creation and the
    grant, and the id and link are returned whatever the grant did. *)
Theorem createSpreadSheet_without_folder_never_moves :
  forall W (c : SpreadsheetContext W) title s r w created,
    spreadsheets_create W (sheets c) title create_fields (world s)
    = (Fulfilled r, w) ->
    created_of r = Some created ->
    truthy (folderId c) = false ->
    fst (createSpreadSheet title (Some c) s) = Return created /\
    sent (snd (createSpreadSheet title (Some c) s))
    = sent s ++ [SpreadsheetsCreate title create_fields;
                 PermissionsCreate (id created) creator_grant true "id"].
Proof.
  intros W c title s r w created Hcreate Hcreated Hfolder.
  destruct (created_of_some r created Hcreated) as (d & Hd & Hi & Ht & Hl).
  destruct created as [i l]. simpl in *. subst l.
  unfold createSpreadSheet. run. rewrite Hcreate. simpl.
  rewrite Hd, Hi. simpl. rewrite Ht. simpl.
  match goal with
  | |- context [permissions_create W ?a ?b ?d ?x ?y ?z] =>
      answer (permissions_create W a b d x y z)
  end; rewrite Hfolder; simpl; rewrite <- !app_assoc; auto.
Qed.

Lemma createSpreadSheet_without_folder_never_moves_witness :
  fst (createSpreadSheet "Budget" (Some Demo.generous) Demo.fresh)
  = Return {| id := "S1";
              link := Some "https://docs.google.com/spreadsheets/d/S1" |} /\
  sent (snd (createSpreadSheet "Budget" (Some Demo.generous) Demo.fresh))
  = sent Demo.fresh
    ++ [SpreadsheetsCreate "Budget" create_fields;
        PermissionsCreate "S1" creator_grant true "id"].
Proof.
  apply (createSpreadSheet_without_folder_never_moves nat Demo.generous
           "Budget" Demo.fresh {| data := Some Demo.book |} 1%nat
           {| id := "S1";
              link := Some "https://docs.google.com/spreadsheets/d/S1" |});
    reflexivity.
Defined.

Lemma find_sheet_found_iff_listed meta t :
  find_sheet meta t <> None <-> In (Some t) (map title_of (listed_sheets meta)).
Proof.
  pose proof (find_sheet_first_titled meta t) as H.
  destruct (find_sheet meta t) as [s |]; simpl in H.
  - destruct H as (before & after & Hl & Ht & _). split; [intros _ | discriminate].
    rewrite Hl, map_app, in_app_iff. right. left. exact Ht.
  - split; [congruence |]. intros Hin. apply in_map_iff in Hin.
    destruct Hin as (s & Hs & Hin). rewrite Forall_forall in H.
    now destruct (H s Hin).
Qed.

(** X4. listSheets returns one title per sheet of the metadata, in order
    (none when the metadata lists no sheets), and rethrows a rejected
    fetch.  A title is in the list exactly when the lookup of renameSheet,
    addRows, addColumns and copySheet finds a sheet for it. *)
Theorem listSheets_lists_what_resolves :
  forall W (c : SpreadsheetContext W) spreadsheetId s,
    match spreadsheets_get W (sheets c) spreadsheetId (world s) with
    | (Rejected e, _) => fst (listSheets spreadsheetId (Some c) s) = Throw e
    | (Fulfilled meta, _) =>
        exists titles,
          fst (listSheets spreadsheetId (Some c) s) = Return titles /\
          titles = map title_of (listed_sheets (data meta)) /\
          forall t, In (Some t) titles <-> find_sheet (data meta) t <> None
    end.
Proof.
  intros W c spreadsheetId s. unfold listSheets. run.
  answer (spreadsheets_get W (sheets c) spreadsheetId (world s)); auto.
  exists (map title_of (listed_sheets (data r))). repeat split.
  - unfold listed_sheets. now destruct (Api.sheets (data r)).
  - apply find_sheet_found_iff_listed.
  - apply find_sheet_found_iff_listed.
Qed.

Lemma found_sheet_has_properties meta t s :
  find_sheet meta t = Some s ->
  exists p, properties s = Some p /\ title p = Some t.
Proof.
  intros H. pose proof (find_sheet_first_titled meta t) as Hf.
  rewrite H in Hf. destruct Hf as (_ & _ & _ & Ht & _).
  unfold title_of in Ht. destruct (properties s) as [p |]; [eauto | discriminate].
Qed.

(** X5. When the sheet title resolves, renameSheet sends, after the fetch,
    exactly one batch update holding one updateSheetProperties request
    that sets the title of the resolved sheet (by its id, field mask
    'title'); it returns the collaborator's response or rethrows its
    rejection. *)
Theorem renameSheet_renames_resolved_sheet :
  forall W (c : SpreadsheetContext W) spreadsheetId sheetTitle newName s
         meta w sheetObj,
    spreadsheets_get W (sheets c) spreadsheetId (world s) = (Fulfilled meta, w) ->
    find_sheet (data meta) sheetTitle = Some sheetObj ->
    sent (snd (renameSheet spreadsheetId sheetTitle newName (Some c) s))
    = sent s ++ [SpreadsheetsGet spreadsheetId;
                 SpreadsheetsBatchUpdate spreadsheetId
                   [updateSheetProperties (sheetId_of sheetObj) newName "title"]] /\
    fst (renameSheet spreadsheetId sheetTitle newName (Some c) s)
    = match fst (spreadsheets_batchUpdate W (sheets c) spreadsheetId
                   [updateSheetProperties (sheetId_of sheetObj) newName "title"]
                   w) with
      | Fulfilled result => Return (Obj result)
      | Rejected e => Throw e
      end.
Proof.
  intros W c spreadsheetId sheetTitle newName s meta w sheetObj Hget Hfind.
  unfold renameSheet. run. rewrite Hget. simpl. rewrite Hfind. simpl.
  match goal with
  | |- context [spreadsheets_batchUpdate W ?a ?b ?d ?x] =>
      answer (spreadsheets_batchUpdate W a b d x)
  end; rewrite <- app_assoc; auto.
Qed.

Lemma renameSheet_renames_resolved_sheet_witness :
  sent (snd (renameSheet "S1" "Sheet1" "Totals" (Some Demo.accepting) Demo.fresh))
  = sent Demo.fresh
    ++ [SpreadsheetsGet "S1";
        SpreadsheetsBatchUpdate "S1"
          [updateSheetProperties (sheetId_of (Demo.tab "Sheet1" 7)) "Totals"
             "title"]] /\
  fst (renameSheet "S1" "Sheet1" "Totals" (Some Demo.accepting) Demo.fresh)
  = match fst (spreadsheets_batchUpdate nat (sheets Demo.accepting) "S1"
                 [updateSheetProperties (sheetId_of (Demo.tab "Sheet1" 7))
                    "Totals" "title"] 1%nat) with
    | Fulfilled result => Return (Obj result)
    | Rejected e => Throw e
    end.
Proof.
  apply (renameSheet_renames_resolved_sheet nat Demo.accepting "S1" "Sheet1"
           "Totals" Demo.fresh {| data := Demo.book |} 1%nat
           (Demo.tab "Sheet1" 7));
    reflexivity.
Defined.

(** X6. When the source sheet resolves and the copy succeeds, copySheet
    sends the fetch and one copyTo for the resolved sheet's id (reading
    that id never fails).  A rename of the copy, in the destination
    spreadsheet, follows exactly when a non-empty destination title is
    given that differs from the copy's title; the result then holds the
    copy and the rename (or the rename's rejection is rethrown), and
    otherwise the copy alone. *)
Theorem copySheet_renames_only_when_needed :
  forall W (c : SpreadsheetContext W) src srcSheet dst dstSheet s
         meta w sheetObj copied w',
    spreadsheets_get W (sheets c) src (world s) = (Fulfilled meta, w) ->
    find_sheet (data meta) srcSheet = Some sheetObj ->
    spreadsheets_sheets_copyTo W (sheets c) src (sheetId_of sheetObj) dst w
    = (Fulfilled copied, w') ->
    let renaming :=
      truthy_string dstSheet
      && negb (match title (data copied) with
               | Some t => String.eqb t dstSheet
               | None => false
               end) in
    let request :=
      [updateSheetProperties (sheetId (data copied)) dstSheet "title"] in
    sent (snd (copySheet src srcSheet dst dstSheet (Some c) s))
    = sent s ++ [SpreadsheetsGet src;
                 SheetsCopyTo src (sheetId_of sheetObj) dst]
             ++ (if renaming then [SpreadsheetsBatchUpdate dst request]
                 else []) /\
    fst (copySheet src srcSheet dst dstSheet (Some c) s)
    = if renaming then
        match fst (spreadsheets_batchUpdate W (sheets c) dst request w') with
        | Fulfilled renamed =>
            Return (Obj {| copy := data copied; rename := Some (data renamed) |})
        | Rejected e => Throw e
        end
      else Return (Obj {| copy := data copied; rename := None |}).
Proof.
  intros W c src srcSheet dst dstSheet s meta w sheetObj copied w'
         Hget Hfind Hcopy renaming request.
  destruct (found_sheet_has_properties _ _ _ Hfind) as (props & Hprops & _).
  unfold sheetId_of in *. rewrite Hprops in *.
  unfold copySheet. run. rewrite Hget. simpl. rewrite Hfind. simpl.
  rewrite Hprops. simpl. rewrite Hcopy. simpl. fold renaming.
  destruct renaming; simpl.
  - fold request.
    answer (spreadsheets_batchUpdate W (sheets c) dst request w');
      rewrite <- !app_assoc; auto.
  - rewrite <- !app_assoc. auto.
Qed.

Lemma copySheet_renames_only_when_needed_witness :
  sent (snd (copySheet "S1" "Sheet1" "S2" "Archive" (Some Demo.accepting)
               Demo.fresh))
  = [SpreadsheetsGet "S1";
     SheetsCopyTo "S1" (Some 7) "S2";
     SpreadsheetsBatchUpdate "S2"
       [updateSheetProperties (Some 21) "Archive" "title"]] /\
  fst (copySheet "S1" "Sheet1" "S2" "Archive" (Some Demo.accepting) Demo.fresh)
  = Return (Obj {| copy := {| sheetId := Some 21;
                              title := Some "Copy of Sheet1";
                              index := None; gridProperties := None |};
                   rename := Some {| replies := Some [] |} |}).
Proof.
  apply (copySheet_renames_only_when_needed nat Demo.accepting "S1" "Sheet1"
           "S2" "Archive" Demo.fresh {| data := Demo.book |} 1%nat
           (Demo.tab "Sheet1" 7)
           {| data := {| sheetId := Some 21; title := Some "Copy of Sheet1";
                         index := None; gridProperties := None |} |} 2%nat);
    reflexivity.
Defined.

(** X7. createSheet sends exactly one batch update with one addSheet
    request.  It rethrows a rejection; it throws a TypeError when the
    answer has no replies or its first reply has no addSheet; for an empty
    reply list it returns undefined id, title and index; otherwise it
    returns those of the first reply, with the spreadsheet id given. *)
Theorem createSheet_reads_first_reply :
  forall W (c : SpreadsheetContext W) spreadsheetId title s,
    sent (snd (createSheet spreadsheetId title (Some c) s))
    = sent s ++ [SpreadsheetsBatchUpdate spreadsheetId [addSheet title]] /\
    match fst (spreadsheets_batchUpdate W (sheets c) spreadsheetId
                 [addSheet title] (world s)) with
    | Rejected e => fst (createSheet spreadsheetId title (Some c) s) = Throw e
    | Fulfilled r =>
        match replies (data r) with
        | None =>
            exists e, fst (createSheet spreadsheetId title (Some c) s) = Throw e
                      /\ name e = "TypeError"
        | Some [] =>
            fst (createSheet spreadsheetId title (Some c) s)
            = Return {| created_sheetId := None; created_title := None;
                        created_index := None;
                        created_spreadsheetId := spreadsheetId |}
        | Some (reply :: _) =>
            match reply_addSheet reply with
            | None =>
                exists e,
                  fst (createSheet spreadsheetId title (Some c) s) = Throw e
                  /\ name e = "TypeError"
            | Some added =>
                exists created,
                  fst (createSheet spreadsheetId title (Some c) s)
                  = Return created /\
                  created_spreadsheetId created = spreadsheetId /\
                  match addSheet_properties added with
                  | Some props =>
                      created_sheetId created = sheetId props /\
                      created_title created = Api.title props /\
                      created_index created = index props
                  | None =>
                      created_sheetId created = None /\
                      created_title created = None /\
                      created_index created = None
                  end
            end
        end
    end.
Proof.
  intros W c spreadsheetId title s. unfold createSheet. run.
  answer (spreadsheets_batchUpdate W (sheets c) spreadsheetId [addSheet title]
            (world s)); [| auto].
  destruct (replies (data r)) as [[| reply rest] |]; simpl; eauto.
  destruct (reply_addSheet reply) as [added |]; simpl; eauto.
  split; auto. eexists. split; [reflexivity |]. simpl.
  destruct (addSheet_properties added); auto.
Qed.

(** X8. On the same metadata spreadsheetInfo and listSheets agree: the
    titles of the sheets spreadsheetInfo describes are the list listSheets
    returns, and their ids are those of the sheets, in order; when the
    metadata lists no sheets spreadsheetInfo reports none and listSheets
    the empty list.  Both rethrow a rejected fetch. *)
Theorem spreadsheetInfo_agrees_with_listSheets :
  forall W (c : SpreadsheetContext W) spreadsheetId s,
    match spreadsheets_get W (sheets c) spreadsheetId (world s) with
    | (Rejected e, _) =>
        fst (spreadsheetInfo spreadsheetId (Some c) s) = Throw e /\
        fst (listSheets spreadsheetId (Some c) s) = Throw e
    | (Fulfilled meta, _) =>
        exists info titles,
          fst (spreadsheetInfo spreadsheetId (Some c) s) = Return info /\
          fst (listSheets spreadsheetId (Some c) s) = Return titles /\
          match info_sheets info with
          | Some described =>
              map info_sheet_title described = titles /\
              Api.sheets (data meta) <> None /\
              map info_sheetId described
              = map sheetId_of (listed_sheets (data meta))
          | None => titles = [] /\ Api.sheets (data meta) = None
          end
    end.
Proof.
  intros W c spreadsheetId s. unfold spreadsheetInfo, listSheets. run.
  answer (spreadsheets_get W (sheets c) spreadsheetId (world s)); auto.
  eexists. eexists. split; [reflexivity |]. split; [reflexivity |]. simpl.
  unfold listed_sheets. destruct (Api.sheets (data r)) as [l |]; auto.
  rewrite !map_map. simpl. repeat split; auto. discriminate.
Qed.

(** X9. listSheets, spreadsheetInfo, sheetData and listSpreadsheets only
    read: whatever the context and the collaborator's answers, each sends
    at most one call, and it is a get or a list. *)
Theorem reading_operations_only_read :
  forall W (context : option (SpreadsheetContext W)) spreadsheetId sheet range
         s,
    (exists new,
        sent (snd (listSheets spreadsheetId context s)) = sent s ++ new /\
        forallb is_read new = true /\ (List.length new <= 1)%nat) /\
    (exists new,
        sent (snd (spreadsheetInfo spreadsheetId context s)) = sent s ++ new /\
        forallb is_read new = true /\ (List.length new <= 1)%nat) /\
    (exists new,
        sent (snd (sheetData spreadsheetId sheet range context s))
        = sent s ++ new /\
        forallb is_read new = true /\ (List.length new <= 1)%nat) /\
    (exists new,
        sent (snd (listSpreadsheets context s)) = sent s ++ new /\
        forallb is_read new = true /\ (List.length new <= 1)%nat).
Proof.
  intros W context spreadsheetId sheet range s.
  unfold listSheets, spreadsheetInfo, sheetData, listSpreadsheets. run.
  repeat split; destruct context as [c |]; crack;
    first [ exists []; rewrite app_nil_r; repeat split; simpl; auto; lia
          | eexists; repeat split; simpl; auto; lia ].
Qed.

(** X10. Called while the context is undefined, every operation of
    sheets.ts except shareSpreadsheet throws a TypeError and sends nothing
    to the collaborator. *)
Theorem operations_need_a_context :
  forall W (s : state W) (text : string) (n : Z) (k : option Z) (v : any)
         (cells : grid),
    let fails {A} (m : Js.M (state W) A) :=
      exists e s', m s = (Throw e, s') /\ name e = "TypeError" /\
                   sent s' = sent s /\ world s' = world s in
    fails (createSpreadSheet text None) /\
    fails (listSheets text None) /\
    fails (renameSheet text text text None) /\
    fails (createSheet text text None) /\
    fails (spreadsheetInfo text None) /\
    fails (listSpreadsheets None) /\
    fails (sheetData text text v None) /\
    fails (updateCells text text v cells None) /\
    fails (batchUpdate text text v None) /\
    fails (addRows text text n k None) /\
    fails (addColumns text text n k None) /\
    fails (copySheet text text text text None).
Proof.
  intros W s text n k v cells fails. unfold fails.
  repeat split;
    try (eexists; eexists; repeat split; reflexivity).
  unfold batchUpdate. run.
  destruct v; simpl; eexists; eexists; repeat split; reflexivity.
Qed.

Lemma share_each_without_context {W} spreadsheetId recipients :
  forall ss fs (s : state W),
    share_each spreadsheetId None recipients ss fs s
    = (Return
         {| successes := ss;
            failures :=
              fs ++ map (fun rec =>
                           {| failure_email_address := email_address rec;
                              error := if invalid_entry rec
                                       then "Invalid Entry"
                                       else message (undefined_property "drive") |})
                        recipients |},
       s).
Proof.
  induction recipients as [| rec rest IH]; intros ss fs s; simpl.
  - now rewrite app_nil_r.
  - destruct (invalid_entry rec); run; rewrite IH, <- app_assoc; reflexivity.
Qed.


Lemma share_each_all_granted {W} (c : SpreadsheetContext W) spreadsheetId
    recipients :
  (forall fileId body notify fields w,
      exists perm w',
        permissions_create W (drive c) fileId body notify fields w
        = (Fulfilled perm, w')) ->
  forall ss fs s,
  exists granted s',
    share_each spreadsheetId (Some c) recipients ss fs s
    = (Return
         {| successes := ss ++ granted;
            failures :=
              fs ++ map (fun rec =>
                           {| failure_email_address := email_address rec;
                              error := "Invalid Entry" |})
                        (filter invalid_entry recipients) |},
       s') /\
    map success_email_address granted
    = map email_address (filter (fun rec => negb (invalid_entry rec)) recipients)
    /\
    map success_role granted
    = map recipient_role (filter (fun rec => negb (invalid_entry rec)) recipients).
Proof.
  intros Hgrant.
  induction recipients as [| rec rest IH]; intros ss fs s; simpl.
  - exists [], s. now rewrite !app_nil_r.
  - destruct (invalid_entry rec) eqn:Hinv; simpl.
    + match goal with
      | |- context [share_each _ _ rest ?a ?b ?st] =>
          destruct (IH a b st) as (granted & s' & Hrun & He & Hr)
      end.
      exists granted, s'. rewrite Hrun, <- app_assoc. auto.
    + run.
      match goal with
      | |- context [permissions_create W ?a ?b ?d ?x ?y ?z] =>
          destruct (Hgrant b d x y z) as (perm & w' & Hp); rewrite Hp
      end; simpl.
      match goal with
      | |- context [share_each _ _ rest ?a ?b ?st] =>
          destruct (IH a b st) as (granted & s' & Hrun & He & Hr)
      end.
      eexists (_ :: granted), s'. rewrite Hrun, <- app_assoc. simpl.
      rewrite He, Hr. auto.
Qed.

(** X12. When the collaborator fulfils every grant, shareSpreadsheet
    succeeds for exactly the valid recipients, in order and with the roles
    asked for, and its failures are exactly the invalid entries, in order,
    each with 'Invalid Entry'. *)
Theorem shareSpreadsheet_all_granted :
  forall W (c : SpreadsheetContext W) spreadsheetId recipients s,
    (forall fileId body notify fields w,
        exists perm w',
          permissions_create W (drive c) fileId body notify fields w
          = (Fulfilled perm, w')) ->
    exists shared s',
      shareSpreadsheet spreadsheetId recipients (Some c) s = (Return shared, s') /\
      map success_email_address (successes shared)
      = map email_address
          (filter (fun rec => negb (invalid_entry rec)) recipients) /\
      map success_role (successes shared)
      = map recipient_role
          (filter (fun rec => negb (invalid_entry rec)) recipients) /\
      failures shared
      = map (fun rec => {| failure_email_address := email_address rec;
                           error := "Invalid Entry" |})
            (filter invalid_entry recipients).
Proof.
  intros W c spreadsheetId recipients s Hgrant. unfold shareSpreadsheet.
  destruct (share_each_all_granted c spreadsheetId recipients Hgrant [] [] s)
    as (granted & s' & Hrun & He & Hr).
  eexists. exists s'. split; [exact Hrun |]. simpl. auto.
Qed.

Lemma shareSpreadsheet_all_granted_witness :
  exists shared s',
    shareSpreadsheet "S1"
      [{| email_address := "ann@example.com"; recipient_role := "reader" |};
       {| email_address := "bob@example.com"; recipient_role := "owner" |};
       {| email_address := "nobody@example.com"; recipient_role := "writer" |}]
      (Some Demo.generous) Demo.fresh
    = (Return shared, s') /\
    map success_email_address (successes shared)
    = ["ann@example.com"; "nobody@example.com"] /\
    map success_role (successes shared) = ["reader"; "writer"] /\
    failures shared
    = [{| failure_email_address := "bob@example.com";
          error := "Invalid Entry" |}].
Proof.
  apply (shareSpreadsheet_all_granted nat Demo.generous "S1"
           [{| email_address := "ann@example.com"; recipient_role := "reader" |};
            {| email_address := "bob@example.com"; recipient_role := "owner" |};
            {| email_address := "nobody@example.com";
               recipient_role := "writer" |}]
           Demo.fresh).
  intros fileId body notify fields w.
  exists {| data := {| Api.id := Some "perm-1" |} |}, (S w). reflexivity.
Defined.

(** X13. With a collaborator that answers a read of a range by the grid
    last written to that range, what updateCells writes is what sheetData
    then reads, for every sheet and range argument, the absent range
    included. *)
Theorem updateCells_then_sheetData_round_trip :
  forall W (c : SpreadsheetContext W) spreadsheetId sheet range cells s
         written s1,
    (forall i r v w resp w1,
        spreadsheets_values_update W (sheets c) i r "USER_ENTERED" v w
        = (Fulfilled resp, w1) ->
        exists w2,
          spreadsheets_values_get W (sheets c) i r w1
          = (Fulfilled {| data := {| values := Some v |} |}, w2)) ->
    updateCells spreadsheetId sheet range cells (Some c) s
    = (Return written, s1) ->
    fst (sheetData spreadsheetId sheet range (Some c) s1) = Return cells.
Proof.
  intros W c spreadsheetId sheet range cells s written s1 Hkeeps.
  unfold updateCells, sheetData. run.
  destruct (spreadsheets_values_update W (sheets c) spreadsheetId
              (fullRange sheet range) "USER_ENTERED" cells (world s))
    as [[resp | e] w1] eqn:Hupdate; simpl; [| discriminate].
  intros Hrun. inversion Hrun; subst; simpl.
  destruct (Hkeeps _ _ _ _ _ _ Hupdate) as (w2 & Hget).
  rewrite Hget. reflexivity.
Qed.

Lemma updateCells_then_sheetData_round_trip_witness :
  fst (sheetData "S1" "Sheet1" (JString "A1:B2") (Some Demo.keeping)
         (snd (updateCells "S1" "Sheet1" (JString "A1:B2")
                 [["1"; "2"]; ["3"; "4"]] (Some Demo.keeping)
                 {| world := []; sent := []; console := [];
                    unhandled := [] |})))
  = Return [["1"; "2"]; ["3"; "4"]].
Proof.
  apply (updateCells_then_sheetData_round_trip _ Demo.keeping "S1" "Sheet1"
           (JString "A1:B2") [["1"; "2"]; ["3"; "4"]]
           {| world := []; sent := []; console := []; unhandled := [] |}
           {| data := {| updatedCells := None |} |}).
  - intros i r v w resp w1 H. exists w1. simpl in *.
    inversion H; subst. unfold Demo.kept. simpl.
    now rewrite String.eqb_refl.
  - reflexivity.
Defined.

(* ================================================================== *)
(** ** Further properties of the tool callbacks *)
(* ================================================================== *)

Section AwaitedOperations.
Context {W : Type}.
Variable context : option (SpreadsheetContext W).
Variable s : state W.







End AwaitedOperations.




(** X16. The callback of renameSheet, unlike those of addRows, addColumns
    and copySheet, tells the caller whether the sheet was found: with the
    context assigned it answers 'Cannot find the sheet with the provided
    name' exactly when no sheet has the title, 'Sheet renamed
    successfully!' when the rename went through, and throws what the
    collaborator rejected with. *)
Theorem renameSheet_tool_tells_not_found :
  forall W (p : process W) (c : SpreadsheetContext W) sid sheetTitle newName,
    Server.context p = Some c ->
    match spreadsheets_get W (sheets c) sid (world (run p)) with
    | (Rejected e, _) =>
        fst (renameSheet_tool sid sheetTitle newName p) = Throw e
    | (Fulfilled meta, w) =>
        match find_sheet (data meta) sheetTitle with
        | None =>
            fst (renameSheet_tool sid sheetTitle newName p)
            = Return (text_result "Cannot find the sheet with the provided name")
        | Some sheetObj =>
            match fst (spreadsheets_batchUpdate W (sheets c) sid
                         [updateSheetProperties (sheetId_of sheetObj) newName
                            "title"] w) with
            | Fulfilled _ =>
                fst (renameSheet_tool sid sheetTitle newName p)
                = Return (text_result "Sheet renamed successfully!")
            | Rejected e =>
                fst (renameSheet_tool sid sheetTitle newName p) = Throw e
            end
        end
    end.
Proof.
  intros W p c sid sheetTitle newName Hc.
  unfold renameSheet_tool, renameSheet, lift. run. rewrite Hc. simpl.
  answer (spreadsheets_get W (sheets c) sid (world (run p))); auto.
  destruct (find_sheet (data r) sheetTitle) as [sheetObj |]; simpl; auto.
  match goal with
  | |- context [spreadsheets_batchUpdate W ?a ?b ?d ?x] =>
      answer (spreadsheets_batchUpdate W a b d x)
  end; auto.
Qed.

Lemma renameSheet_tool_tells_not_found_witness :
  Server.context (Demo.ready Demo.accepting) = Some Demo.accepting /\
  fst (renameSheet_tool "S1" "Sheet1" "Totals" (Demo.ready Demo.accepting))
  = Return (text_result "Sheet renamed successfully!") /\
  fst (renameSheet_tool "S1" "sheet1" "Totals" (Demo.ready Demo.accepting))
  = Return (text_result "Cannot find the sheet with the provided name").
Proof.
  split; [reflexivity |]. split.
  - exact (renameSheet_tool_tells_not_found nat (Demo.ready Demo.accepting)
             Demo.accepting "S1" "Sheet1" "Totals" eq_refl).
  - exact (renameSheet_tool_tells_not_found nat (Demo.ready Demo.accepting)
             Demo.accepting "S1" "sheet1" "Totals" eq_refl).
Defined.

(* ================================================================== *)
(** ** Relations kept by the code that runs in the process *)
(* ================================================================== *)

Section Related.
Context {W : Type}.
Variable R : process W -> process W -> Prop.
Hypothesis R_refl : forall p, R p p.
Hypothesis R_trans : forall p q r, R p q -> R q r -> R p r.
#[local] Abbreviation M := (Js.M (process W)).

Lemma related_ret {A} (a : A) : related R (ret a : M A).
Proof. intros p. apply R_refl. Qed.

Lemma related_throw {A} e : related R (throw e : M A).
Proof. intros p. apply R_refl. Qed.

Lemma related_exit {A} code : related R (process_exit code : M A).
Proof. intros p. apply R_refl. Qed.

Lemma related_gets {A} (f : process W -> A) : related R (gets f).
Proof. intros p. apply R_refl. Qed.

Lemma related_await {A} (r : settled A) : related R (await r : M A).
Proof. intros p. destruct r; apply R_refl. Qed.

Lemma related_get_property v k : related R (get_property v k : M any).
Proof. intros p. destruct v; apply R_refl. Qed.

Lemma related_existsSync path : related R (existsSync path : M bool).
Proof. intros p. apply R_refl. Qed.

Lemma related_readFileSync path : related R (readFileSync path : M string).
Proof. intros p. unfold readFileSync. destruct (disk p path); apply R_refl. Qed.

Lemma related_bind {A B} (m : M A) (k : A -> M B) :
  related R m -> (forall a, related R (k a)) -> related R (bind m k).
Proof.
  intros Hm Hk p. unfold bind. specialize (Hm p).
  destruct (m p) as [[a | e | code] p']; simpl in *; auto.
  eapply R_trans; [exact Hm | apply Hk].
Qed.

Lemma related_try_catch {A} (body : M A) handler :
  related R body -> (forall e, related R (handler e)) ->
  related R (try_catch body handler).
Proof.
  intros Hb Hh p. unfold try_catch. specialize (Hb p).
  destruct (body p) as [[a | e | code] p']; simpl in *; auto.
  eapply R_trans; [exact Hb | apply Hh].
Qed.
End Related.

(** Decomposes a goal [related R m] along the structure of [m]; [refl] and
    [trans] prove that [R] is reflexive and transitive, [base] closes the
    goals about the operations that change the process. *)
Ltac relate refl trans base :=
  repeat (intros;
          lazymatch goal with
          | |- related _ (ret _) => apply (related_ret _ refl)
          | |- related _ (throw _) => apply (related_throw _ refl)
          | |- related _ (process_exit _) => apply (related_exit _ refl)
          | |- related _ (gets _) => apply (related_gets _ refl)
          | |- related _ (await _) => apply (related_await _ refl)
          | |- related _ (get_property _ _) =>
              apply (related_get_property _ refl)
          | |- related _ (existsSync _) => apply (related_existsSync _ refl)
          | |- related _ (readFileSync _) =>
              apply (related_readFileSync _ refl)
          | |- related _ (try_catch _ _) => apply (related_try_catch _ trans)
          | |- related _ (bind _ _) =>
              first [ base | apply (related_bind _ trans) ]
          | |- related _ (if ?b then _ else _) => destruct b
          | |- related _ (match ?x with _ => _ end) => destruct x
          | |- related _ _ => base
          end).

(** X17. A tool callback changes nothing of the process but the state it
    shares with sheets.ts: it leaves the context variable, the files on
    disk and the bootstrap's record as they are. *)
Theorem callbacks_leave_context_and_disk :
  forall W (c : CallTool) (p : process W),
    Server.context (snd (tool_callback c p)) = Server.context p /\
    disk (snd (tool_callback c p)) = disk p /\
    waits (snd (tool_callback c p)) = waits p.
Proof.
  intros W c.
  pose (R := fun p p' : process W =>
               Server.context p' = Server.context p /\
               disk p' = disk p /\ waits p' = waits p).
  assert (refl : forall p, R p p) by (intros p; unfold R; auto).
  assert (trans : forall p q r, R p q -> R q r -> R p r).
  { unfold R. intros p q r (H1 & H2 & H3) (H4 & H5 & H6).
    repeat split; congruence. }
  assert (lifted : forall A (m : Js.M (state W) A), related R (lift m)).
  { intros A m p. unfold lift. destruct (m (run p)). unfold R. simpl. auto. }
  change (related R (tool_callback c)).
  destruct c; simpl;
    unfold create_tool, listSheets_tool, renameSheet_tool, createSheet_tool,
      spreadsheetInfo_tool, listSpreadsheets_tool, shareSpreadsheet_tool,
      sheetData_tool, updateCells_tool, batchUpdate_tool, addRows_tool,
      addColumns_tool, copySheet_tool;
    relate refl trans ltac:(apply lifted).
Qed.

(* ================================================================== *)
(** ** Further properties of the server's life *)
(* ================================================================== *)

Lemma stage_tells_context_and_status {W} (env : Env W) es :
  forall s s',
    match at_stage s with
    | Starting | Listening => Server.context (proc s) = None
    | Ready => Server.context (proc s) <> None
    | Stopped code => code = 1
    end ->
    handle_all env es s = Some s' ->
    match at_stage s' with
    | Starting | Listening => Server.context (proc s') = None
    | Ready => Server.context (proc s') <> None
    | Stopped code => code = 1
    end.
Proof.
  induction es as [| e es IH]; intros s s' Hs Hrun; simpl in Hrun.
  - inversion Hrun; subst. auto.
  - destruct (handle env e s) as [s1 |] eqn:He; [| discriminate].
    apply (IH s1 s'); auto. clear IH Hrun.
    unfold handle in He.
    destruct e as [| | c]; destruct (at_stage s) eqn:Hst; try discriminate.
    + destruct (connect env); inversion He; subst; simpl; auto.
    + pose proof (initContext_exits_iff_unassigned env (proc s) Hs) as Hi.
      destruct (initContext env (proc s)) as [[[] | e | code] p'];
        inversion He; subst; simpl; auto. now destruct Hi.
    + destruct (bootstrap_suspends env (proc s)); inversion He; subst.
      destruct (serve_keeps_context c s) as [Hc Hk]. rewrite Hk, Hst. congruence.
    + inversion He; subst.
      destruct (serve_keeps_context c s) as [Hc Hk]. rewrite Hk, Hst. congruence.
Qed.

(** X18. In every run of the server from its start, whatever the events
    and the surroundings: the context is unassigned until initContext has
    returned and assigned from then on, and when the process stops its
    exit status is 1. *)
Theorem server_stage_tells_context :
  forall W (env : Env W) es w files s',
    handle_all env es (boot w files) = Some s' ->
    match at_stage s' with
    | Starting | Listening => Server.context (proc s') = None
    | Ready => Server.context (proc s') <> None
    | Stopped code => code = 1
    end.
Proof.
  intros W env es w files s' Hrun.
  apply (stage_tells_context_and_status env es (boot w files) s'); auto.
  reflexivity.
Qed.

Lemma server_stage_tells_context_witness :
  exists s',
    handle_all (Demo.surroundings (Some "a2V5") false)
      [Connected; Incoming (tool_listSheets "S1"); Initialised]
      (boot O Demo.oauth_disk) = Some s' /\
    at_stage s' = Ready /\
    Server.context (proc s') <> None.
Proof.
  destruct (handle_all (Demo.surroundings (Some "a2V5") false)
              [Connected; Incoming (tool_listSheets "S1"); Initialised]
              (boot O Demo.oauth_disk)) as [s' |] eqn:Hrun.
  - exists s'. split; [reflexivity |].
    pose proof (server_stage_tells_context nat
                  (Demo.surroundings (Some "a2V5") false)
                  [Connected; Incoming (tool_listSheets "S1"); Initialised]
                  O Demo.oauth_disk s' Hrun) as Hstage.
    assert (Hready : option_map at_stage (Some s') = Some Ready).
    { rewrite <- Hrun. vm_compute. reflexivity. }
    simpl in Hready. inversion Hready as [Hr]. rewrite Hr in Hstage.
    split; [reflexivity | exact Hstage].
  - exfalso.
    assert (Hsome : option_map at_stage (@None (server nat)) = Some Ready).
    { rewrite <- Hrun. vm_compute. reflexivity. }
    discriminate.
Defined.



(* ================================================================== *)
(** ** Further properties of the bootstrap *)
(* ================================================================== *)

(** X20. With no usable service credential in the environment (none, or
    the empty string) and no credentials.json on disk, initContext logs
    'No valid authentication method available' and exits with status 1; it
    waits for nothing and changes nothing else. *)
Theorem initContext_without_credentials_exits :
  forall W (env : Env W) (p : process W),
    truthy (CREDENTIALS_CONFIG env) = false ->
    disk p CREDENTIALS_PATH = None ->
    initContext env p
    = (Exit 1,
       {| Server.context := Server.context p;
          run := {| world := world (run p);
                    sent := sent (run p);
                    console :=
                      console (run p)
                      ++ [console_error
                            [Text "Failed to initialize context:";
                             Caught (new_Error
                                       "No valid authentication method available")]];
                    unhandled := unhandled (run p) |};
          disk := disk p;
          waits := waits p |}).
Proof.
  intros W env p Hconfig Hdisk.
  unfold initContext, service_credentials, try_catch, bind, existsSync, gets.
  unfold truthy in Hconfig.
  destruct (CREDENTIALS_CONFIG env) as [config |]; simpl;
    [rewrite Hconfig |]; simpl; rewrite Hdisk; reflexivity.
Qed.

Lemma initContext_without_credentials_exits_witness :
  fst (initContext (Demo.surroundings (Some "") true)
         (Demo.unassigned Demo.empty_disk)) = Exit 1 /\
  console (run (snd (initContext (Demo.surroundings (Some "") true)
                       (Demo.unassigned Demo.empty_disk))))
  = [console_error
       [Text "Failed to initialize context:";
        Caught (new_Error "No valid authentication method available")]].
Proof.
  rewrite (initContext_without_credentials_exits nat
             (Demo.surroundings (Some "") true)
             (Demo.unassigned Demo.empty_disk) eq_refl eq_refl).
  split; reflexivity.
Defined.

(** X21. initContext writes no file but token.json, and what it writes
    there is the rendering of the tokens obtained by exchanging the
    operator's trimmed answer: every path either holds what it held, or is
    token.json and holds such a rendering. *)
Theorem initContext_persists_only_the_exchanged_token :
  forall W (env : Env W) (p : process W) path,
    disk (snd (initContext env p)) path = disk p path \/
    (path = TOKEN_PATH /\
     exists client tokens,
       getToken env client (trim env (answer env)) = Fulfilled tokens /\
       disk (snd (initContext env p)) path = Some (JSON_stringify env tokens)).
Proof.
  intros W env p path.
  pose (R := fun p p' : process W =>
               disk p' path = disk p path \/
               (path = TOKEN_PATH /\
                exists client tokens,
                  getToken env client (trim env (answer env)) = Fulfilled tokens /\
                  disk p' path = Some (JSON_stringify env tokens))).
  assert (refl : forall p, R p p) by (intros q; unfold R; auto).
  assert (trans : forall p q r, R p q -> R q r -> R p r).
  { unfold R. intros a b d [H1 | H1] [H2 | H2]; auto.
    - left. congruence.
    - right. destruct H1 as (Hp & client & tokens & Hg & Hd).
      split; auto. exists client, tokens. split; auto. congruence. }
  assert (lifted : forall A (m : Js.M (state W) A), related R (lift m)).
  { intros A m q. unfold lift. destruct (m (run q)). unfold R. simpl. auto. }
  assert (suspended : forall what, related R (suspend what)).
  { intros what q. unfold R. simpl. auto. }
  assert (assigned : forall c, related R (set_context c)).
  { intros c q. unfold R. simpl. auto. }
  assert (exchanged : forall client B (k : any -> Js.M (process W) B),
             (forall tokens, related R (k tokens)) ->
             related R
               (tokens <- await (getToken env client (trim env (answer env)));;
                writeFileSync TOKEN_PATH (JSON_stringify env tokens);;;
                k tokens)).
  { intros client B k Hk q. unfold bind, await.
    destruct (getToken env client (trim env (answer env))) as [tokens | e]
      eqn:Hg; simpl; [| apply refl].
    eapply trans; [| apply Hk].
    unfold R. simpl. destruct (String.eqb path TOKEN_PATH) eqn:Hp; auto.
    apply String.eqb_eq in Hp. right. split; auto.
    exists client, tokens. split; auto. }
  assert (Hrel : related R (initContext env)).
  { unfold initContext, service_credentials, oauth_credentials, saved_token.
    relate refl trans
      ltac:(first [ apply lifted | apply suspended | apply assigned
                  | apply (exchanged _ _ (fun tokens => _)) ]). }
  exact (Hrel p).
Qed.

(** X22. The bootstrap never calls the Sheets API, and the only Drive call
    it makes is the probe of a saved token, files.list with pageSize 1; it
    leaves no rejection unhandled. *)
Theorem initContext_only_probes :
  forall W (env : Env W) (p : process W),
    (exists new,
        sent (run (snd (initContext env p))) = sent (run p) ++ new /\
        Forall (fun c => c = FilesList probe_params) new) /\
    unhandled (run (snd (initContext env p))) = unhandled (run p).
Proof.
  intros W env p.
  pose (R := fun p p' : process W =>
               (exists new,
                   sent (run p') = sent (run p) ++ new /\
                   Forall (fun c => c = FilesList probe_params) new) /\
               unhandled (run p') = unhandled (run p)).
  assert (refl : forall p, R p p).
  { intros q. split; auto. exists []. now rewrite app_nil_r. }
  assert (trans : forall p q r, R p q -> R q r -> R p r).
  { unfold R. intros a b d ((n1 & H1 & F1) & U1) ((n2 & H2 & F2) & U2).
    split; [| congruence].
    exists (n1 ++ n2). rewrite H2, H1, app_assoc. split; auto.
    apply Forall_app. auto. }
  assert (printed : forall line, related R (lift (print line))).
  { intros line q. unfold R. simpl. split; [| reflexivity].
    exists []. now rewrite app_nil_r. }
  assert (probed : forall drive,
             related R (lift (invoke (FilesList probe_params)
                                (files_list W drive probe_params)))).
  { intros drive q. unfold lift, invoke.
    destruct (files_list W drive probe_params (world (run q))) as [[r | e] w];
      simpl; (split; [| reflexivity]);
      exists [FilesList probe_params]; simpl; auto. }
  assert (suspended : forall what, related R (suspend what)).
  { intros what q. unfold R. simpl. split; [| reflexivity].
    exists []. now rewrite app_nil_r. }
  assert (assigned : forall c, related R (set_context c)).
  { intros c q. unfold R. simpl. split; [| reflexivity].
    exists []. now rewrite app_nil_r. }
  assert (written : forall path text, related R (writeFileSync path text)).
  { intros path text q. unfold R. simpl. split; [| reflexivity].
    exists []. now rewrite app_nil_r. }
  assert (Hrel : related R (initContext env)).
  { unfold initContext, service_credentials, oauth_credentials, saved_token.
    relate refl trans
      ltac:(first [ apply printed | apply probed | apply suspended
                  | apply assigned | apply written ]). }
  exact (Hrel p).
Qed.

(** X23. Whenever initContext returns, the context it has assigned is
    built on one auth client: its Sheets and Drive handles are those of the
    same client, and its folder id is DRIVE_FOLDER_ID when that is set and
    not empty and undefined otherwise, hence never the empty string. *)
Theorem initContext_assigns_a_well_formed_context :
  forall W (env : Env W) (p : process W),
    Server.context p = None ->
    match initContext env p with
    | (Return _, p') =>
        exists auth c,
          Server.context p' = Some c /\
          sheets c = google_sheets env auth /\
          drive c = google_drive env auth /\
          folderId c <> Some "" /\
          folderId c = (if truthy (env_DRIVE_FOLDER_ID env)
                        then env_DRIVE_FOLDER_ID env else None)
    | (Throw _, _) => False
    | (Exit code, p') => code = 1 /\ Server.context p' = None
    end.
Proof.
  intros W env p Hp.
  pose (R := fun p p' : process W =>
               Server.context p' = Server.context p \/
               exists auth, Server.context p' = Some (new_context env auth)).
  assert (refl : forall p, R p p) by (intros q; unfold R; auto).
  assert (trans : forall p q r, R p q -> R q r -> R p r).
  { unfold R. intros a b d [H1 | H1] [H2 | H2]; auto.
    - left. congruence.
    - right. destruct H1 as (auth & H1). exists auth. congruence. }
  assert (lifted : forall A (m : Js.M (state W) A), related R (lift m)).
  { intros A m q. unfold lift. destruct (m (run q)). unfold R. simpl. auto. }
  assert (suspended : forall what, related R (suspend what)).
  { intros what q. unfold R. simpl. auto. }
  assert (written : forall path text, related R (writeFileSync path text)).
  { intros path text q. unfold R. simpl. auto. }
  assert (assigned : forall auth, related R (set_context (new_context env auth))).
  { intros auth q. unfold R. simpl. eauto. }
  assert (Hrel : related R (initContext env)).
  { unfold initContext, service_credentials, oauth_credentials, saved_token.
    relate refl trans
      ltac:(first [ apply lifted | apply suspended | apply written
                  | apply assigned ]). }
  specialize (Hrel p).
  pose proof (initContext_exits_iff_unassigned env p Hp) as Hexit.
  destruct (initContext env p) as [[[] | e | code] p']; simpl in *; auto.
  destruct Hrel as [Hsame | (auth & Hauth)]; [congruence |].
  exists auth, (new_context env auth). repeat split; auto.
  - unfold new_context, DRIVE_FOLDER_ID. simpl.
    destruct (env_DRIVE_FOLDER_ID env) as [f |]; simpl; [| discriminate].
    destruct (truthy_string f) eqn:Hf; [| discriminate].
    intros H. inversion H; subst. discriminate.
  - unfold new_context, DRIVE_FOLDER_ID, truthy. simpl.
    destruct (env_DRIVE_FOLDER_ID env) as [f |]; simpl; auto.
Qed.

Lemma initContext_assigns_a_well_formed_context_witness :
  Server.context (Demo.unassigned Demo.oauth_disk) = None /\
  match initContext (Demo.surroundings None true)
          (Demo.unassigned Demo.oauth_disk) with
  | (Return _, p') =>
      exists auth c,
        Server.context p' = Some c /\
        sheets c = google_sheets (Demo.surroundings None true) auth /\
        drive c = google_drive (Demo.surroundings None true) auth /\
        folderId c <> Some "" /\
        folderId c = Some "F1"
  | (Throw _, _) => False
  | (Exit code, p') => code = 1 /\ Server.context p' = None
  end.
Proof.
  split; [reflexivity |].
  exact (initContext_assigns_a_well_formed_context nat
           (Demo.surroundings None true) (Demo.unassigned Demo.oauth_disk)
           eq_refl).
Defined.



(** X25. When the transport cannot be connected, startServer logs the
    error and exits with status 1: initContext never runs, nothing is sent
    to the collaborator, no request is served, and no further event is
    handled. *)
Theorem failed_connect_stops_the_server :
  forall W (env : Env W) e es w files s',
    connect env = Rejected e ->
    handle_all env (Connected :: es) (boot w files) = Some s' ->
    es = [] /\
    at_stage s' = Stopped 1 /\
    Server.context (proc s') = None /\
    served s' = [] /\
    sent (run (proc s')) = [] /\
    waits (proc s') = [] /\
    console (run (proc s'))
    = [console_error [Text "Failed to start server:"; Caught e]].
Proof.
  intros W env e es w files s' Hconnect Hrun.
  simpl in Hrun. unfold handle in Hrun. simpl in Hrun.
  rewrite Hconnect in Hrun.
  destruct es as [| e' es]; simpl in Hrun.
  - inversion Hrun; subst. simpl. repeat split.
  - unfold handle in Hrun. simpl in Hrun. destruct e'; discriminate.
Qed.

Lemma failed_connect_stops_the_server_witness :
  exists s',
    handle_all Demo.offline [Connected] (boot O Demo.empty_disk) = Some s' /\
    at_stage s' = Stopped 1 /\
    Server.context (proc s') = None /\
    served s' = [] /\
    sent (run (proc s')) = [] /\
    waits (proc s') = [] /\
    console (run (proc s'))
    = [console_error [Text "Failed to start server:";
                      Caught (new_Error "stdin closed")]].
Proof.
  eexists. split; [reflexivity |].
  apply (failed_connect_stops_the_server nat Demo.offline
           (new_Error "stdin closed") [] O Demo.empty_disk);
    reflexivity.
Defined.

(* ================================================================== *)
(** ** Further properties of batchUpdate, listSpreadsheets and sharing *)
(* ================================================================== *)

(** X26. For undefined or null ranges batchUpdate throws a TypeError
    before anything is sent.  For every other value it sends exactly one
    values.batchUpdate, user-entered, with one entry per own enumerable
    property of ranges, in enumeration order: the entry of the property
    with key k addresses sheet!k and carries the property's value
    unchanged.  So an object keyed by range is written range by range. *)
Theorem batchUpdate_sends_one_entry_per_property :
  forall W (c : SpreadsheetContext W) spreadsheetId sheet ranges s,
    match ranges with
    | JUndefined | JNull =>
        exists e,
          batchUpdate spreadsheetId sheet ranges (Some c) s = (Throw e, s) /\
          name e = "TypeError"
    | _ =>
        exists entries,
          sent (snd (batchUpdate spreadsheetId sheet ranges (Some c) s))
          = sent s ++ [ValuesBatchUpdate spreadsheetId "USER_ENTERED" entries] /\
          map entry_range entries
          = map (fun p => sheet ^^ "!" ^^ fst p) (own_entries ranges) /\
          map entry_values entries = map snd (own_entries ranges)
    end.
Proof.
  intros W c spreadsheetId sheet ranges s.
  assert (Hentries : forall l : list (string * any),
             map entry_range (map (data_entry sheet) l)
             = map (fun p => sheet ^^ "!" ^^ fst p) l /\
             map entry_values (map (data_entry sheet) l) = map snd l).
  { intros l. rewrite !map_map. split; reflexivity. }
  destruct ranges.
  1, 2: unfold batchUpdate; run; eauto.
  all: match goal with
       | |- context [own_entries ?v] =>
           exists (map (data_entry sheet) (own_entries v))
       end;
    (split; [| apply Hentries]); unfold batchUpdate; run;
    match goal with
    | |- context [spreadsheets_values_batchUpdate _ ?a ?b ?d ?x ?y] =>
        answer (spreadsheets_values_batchUpdate _ a b d x y)
    end; reflexivity.
Qed.

(** X27. listSpreadsheets sends exactly one files.list over the drive
    space, newest modification first, asking for id and name; the query
    selects spreadsheets and is narrowed to the configured folder exactly
    when the folder id is set and not empty.  It returns the id and name
    of every file in the answer's order, undefined when the answer has no
    file list, and rethrows a rejection. *)
Theorem listSpreadsheets_filters_by_folder :
  forall W (c : SpreadsheetContext W) s,
    let params :=
      {| q := Some (if truthy (folderId c)
                    then "mimeType='application/vnd.google-apps.spreadsheet'"
                         ^^ " and '" ^^ string_of_optional (folderId c)
                         ^^ "' in parents"
                    else "mimeType='application/vnd.google-apps.spreadsheet'");
         spaces := Some "drive";
         list_fields := Some "files(id, name)";
         orderBy := Some "modifiedTime desc";
         pageSize := None |} in
    sent (snd (listSpreadsheets (Some c) s)) = sent s ++ [FilesList params] /\
    fst (listSpreadsheets (Some c) s)
    = match fst (files_list W (drive c) params (world s)) with
      | Fulfilled list =>
          Return (match files (data list) with
                  | Some l =>
                      Some (map (fun f => {| listed_id := file_id f;
                                             listed_title := file_name f |}) l)
                  | None => None
                  end)
      | Rejected e => Throw e
      end.
Proof.
  intros W c s params. unfold listSpreadsheets. run. subst params.
  destruct (truthy (folderId c)); simpl;
    match goal with
    | |- context [files_list W ?a ?b ?d] => answer (files_list W a b d)
    end; auto.
Qed.

(** X28. The callback of shareSpreadsheet always answers, with one text
    item that starts with 'Following are the successes: ', whatever the
    recipients, the collaborator and the context, undefined included: no
    failure of a grant reaches the caller as an error. *)
Theorem shareSpreadsheet_tool_always_answers :
  forall W (p : process W) spreadsheetId recipients,
  exists rest,
    fst (shareSpreadsheet_tool spreadsheetId recipients p)
    = Return (text_result ("Following are the successes: " ^^ rest)).
Proof.
  intros W p spreadsheetId recipients.
  unfold shareSpreadsheet_tool, bind, gets, lift, ret. simpl.
  destruct (Server.context p) as [c |].
  - unfold shareSpreadsheet.
    destruct (share_each_outcomes c spreadsheetId recipients [] [] (run p))
      as (ss & fs & s' & Hrun & _).
    rewrite Hrun. simpl. eauto.
  - unfold shareSpreadsheet. rewrite share_each_without_context. simpl. eauto.
Qed.
